(** * Aether Weather: location resolution, normalisation and AI enrichment

    A shallow embedding of [services/geminiService.ts] (geocoding search,
    the weather pipeline, the two generative-text requests), of the state
    handlers of [App.tsx] that call them and of [WeatherIcon.tsx], followed
    by the properties of the specification that concern them and by further
    properties of the code.

    Conventions of the embedding.
    - A JavaScript number is a [number]: NaN, the two infinities, or a finite
      value carried as a rational (every finite double is one).  [Math.round]
      is exact on doubles, so it is modelled exactly.  Negative zero is not
      distinguished from zero.
    - A JavaScript string is a [string]; its [length] is counted in
      characters of the Rocq string (the UTF-16 length on ASCII text).
    - A value obtained from [JSON.parse] or [Response.json] is a [value].
    - A call that may throw returns a [result]; asynchronous functions are
      computations in the monad [M], which reads the host (network,
      generative model, clock, built-ins whose definition lies outside the
      repository) and records the observable calls in a log. *)

From Stdlib Require Import List String Ascii Bool Arith ZArith QArith Qround Lia Lqa.
From Stdlib Require Import Qabs DecimalString.
Import ListNotations.
Local Open Scope string_scope.

Set Implicit Arguments.
Set Warnings "-register-all".

(** ** Numbers *)

Inductive number : Type :=
| NaN
| PosInfinity
| NegInfinity
| Fin (q : Q).

Definition isNaN (n : number) : bool :=
  match n with NaN => true | _ => false end.

Definition numOfZ (z : Z) : number := Fin (inject_Z z).

(** [Math.round]: the integer nearest to the argument, ties towards
    positive infinity; NaN and the infinities are returned unchanged. *)
Definition Math_round (n : number) : number :=
  match n with
  | Fin q => numOfZ (Qfloor (q + (1 # 2)))
  | other => other
  end.

(** [Number.isInteger]. *)
Definition isInteger (n : number) : bool :=
  match n with
  | Fin q => Pos.eqb (Qden (Qred q)) 1
  | _ => false
  end.

(** ** Exceptions and results *)

Inductive exn : Type :=
| TypeError (msg : string)
| SyntaxError (msg : string)
| URIError (msg : string)
| Error (msg : string).

Inductive result (A : Type) : Type :=
| Ok (a : A)
| Throw (e : exn).

Arguments Ok {A} a.
Arguments Throw {A} e.

(** ** Strings *)

(** The white space of ASCII text: tab, line feed, vertical tab, form
    feed, carriage return and space.  [trim] and [parseFloat] also skip the
    white space outside ASCII (U+00A0, U+FEFF, the space separators,
    U+2028 and U+2029), which this model leaves in place. *)
Definition isWhiteSpace (c : ascii) : bool :=
  let n := nat_of_ascii c in
  (Nat.eqb n 9 || Nat.eqb n 10 || Nat.eqb n 11 || Nat.eqb n 12
   || Nat.eqb n 13 || Nat.eqb n 32)%bool.

Fixpoint dropWhile {A} (p : A -> bool) (l : list A) : list A :=
  match l with
  | [] => []
  | x :: r => if p x then dropWhile p r else l
  end.

Fixpoint span {A} (p : A -> bool) (l : list A) : list A * list A :=
  match l with
  | [] => ([], [])
  | x :: r =>
      if p x then let (a, b) := span p r in (x :: a, b) else ([], l)
  end.

Definition trimStart (l : list ascii) : list ascii := dropWhile isWhiteSpace l.

Definition trimChars (l : list ascii) : list ascii :=
  rev (trimStart (rev (trimStart l))).

(** [String.prototype.trim]. *)
Definition trim (s : string) : string :=
  string_of_list_ascii (trimChars (list_ascii_of_string s)).

Definition comma : ascii := ","%char.

(** [String.prototype.split] on a one-character separator. *)
Fixpoint splitChars (sep : ascii) (l : list ascii) : list (list ascii) :=
  match l with
  | [] => [[]]
  | c :: r =>
      if Ascii.eqb c sep then [] :: splitChars sep r
      else match splitChars sep r with
           | [] => [[c]]
           | p :: ps => (c :: p) :: ps
           end
  end.

Definition split (sep : ascii) (s : string) : list string :=
  map string_of_list_ascii (splitChars sep (list_ascii_of_string s)).

Fixpoint prefixChars (p l : list ascii) : bool :=
  match p, l with
  | [], _ => true
  | _ :: _, [] => false
  | a :: p', b :: l' => Ascii.eqb a b && prefixChars p' l'
  end.

Fixpoint includesChars (p l : list ascii) : bool :=
  prefixChars p l ||
  match l with
  | [] => false
  | _ :: r => includesChars p r
  end.

(** [String.prototype.includes]. *)
Definition includes (s sub : string) : bool :=
  includesChars (list_ascii_of_string sub) (list_ascii_of_string s).

Definition lowerChar (c : ascii) : ascii :=
  let n := nat_of_ascii c in
  if (Nat.leb 65 n && Nat.leb n 90)%bool then ascii_of_nat (n + 32) else c.

(** [String.prototype.toLowerCase] on ASCII text. *)
Definition toLowerCase (s : string) : string :=
  string_of_list_ascii (map lowerChar (list_ascii_of_string s)).

(** ** parseFloat *)

Definition isDigit (c : ascii) : bool :=
  let n := nat_of_ascii c in (Nat.leb 48 n && Nat.leb n 57)%bool.

Definition digitVal (c : ascii) : Z := Z.of_nat (nat_of_ascii c - 48).

Definition digitsVal (ds : list ascii) : Z :=
  fold_left (fun acc c => (acc * 10 + digitVal c)%Z) ds 0%Z.

(** The value [m * 10 ^ e] of a decimal literal. *)
Definition decimalQ (m e : Z) : Q :=
  if (0 <=? e)%Z then inject_Z (m * 10 ^ e)
  else Qmake m (Z.to_pos (10 ^ (- e))).

(** An optional exponent part: [e] or [E], an optional sign, one digit at
    least.  Anything else is no exponent part and is left unread. *)
Definition exponentPart (l : list ascii) : Z :=
  match l with
  | c :: r =>
      if (Ascii.eqb c "e" || Ascii.eqb c "E")%bool then
        let '(neg, r') :=
          match r with
          | s :: t =>
              if Ascii.eqb s "-" then (true, t)
              else if Ascii.eqb s "+" then (false, t)
              else (false, r)
          | [] => (false, r)
          end in
        let (ds, _) := span isDigit r' in
        match ds with
        | [] => 0%Z
        | _ => if neg then (- digitsVal ds)%Z else digitsVal ds
        end
      else 0%Z
  | [] => 0%Z
  end.

(** [parseFloat]: leading white space is skipped, then the longest prefix
    that is a decimal literal is read; NaN when there is none.  The finite
    result is the exact value of the literal: the rounding to the nearest
    double, the overflow to an infinity and the underflow to zero are not
    modelled.  Whether the result is NaN is as in the code. *)
Definition parseFloatChars (l : list ascii) : number :=
  let l0 := trimStart l in
  let '(neg, l1) :=
    match l0 with
    | s :: t =>
        if Ascii.eqb s "-" then (true, t)
        else if Ascii.eqb s "+" then (false, t)
        else (false, l0)
    | [] => (false, l0)
    end in
  if prefixChars (list_ascii_of_string "Infinity") l1 then
    if neg then NegInfinity else PosInfinity
  else
    let (ip, r1) := span isDigit l1 in
    let (fp, r2) :=
      match r1 with
      | d :: t => if Ascii.eqb d "." then span isDigit t else ([], r1)
      | [] => ([], r1)
      end in
    match (ip ++ fp)%list with
    | [] => NaN
    | ds =>
        let m := digitsVal ds in
        let e := (exponentPart r2 - Z.of_nat (List.length fp))%Z in
        Fin (decimalQ (if neg then (- m)%Z else m) e)
    end.

Definition parseFloat (s : string) : number :=
  parseFloatChars (list_ascii_of_string s).

(** ** JSON values *)

(** What [JSON.parse] and [Response.json] return, and [undefined], which a
    property read produces for a missing key. *)
Inductive value : Type :=
| VUndefined
| VNull
| VBool (b : bool)
| VNum (n : number)
| VStr (s : string)
| VArr (items : list value)
| VObj (fields : list (string * value)).

Definition isZero (n : number) : bool :=
  match n with Fin q => Qeq_bool q 0 | _ => false end.

(** Truthiness, as [if], [!] and [||] test it. *)
Definition truthy (v : value) : bool :=
  match v with
  | VUndefined | VNull => false
  | VBool b => b
  | VNum n => negb (isNaN n || isZero n)
  | VStr s => negb (String.eqb s "")
  | VArr _ | VObj _ => true
  end.

Fixpoint lookupField (k : string) (fields : list (string * value)) : value :=
  match fields with
  | [] => VUndefined
  | (k', v) :: r => if String.eqb k k' then v else lookupField k r
  end.

(** The property read [v.k] for the data keys this program reads (none of
    them is inherited from a prototype): a [TypeError] on [undefined] and
    [null], the field of an object, [undefined] on anything else. *)
Definition getProp (v : value) (k : string) : result value :=
  match v with
  | VUndefined | VNull => Throw (TypeError "Cannot read properties")
  | VObj fields => Ok (lookupField k fields)
  | _ => Ok VUndefined
  end.

(** ** The forecast payload, read through the provider's schema *)

(** A numeric entry: a JSON number, a JSON [null] (a gap in the series), or
    [undefined] (a missing key, an index past the end). *)
Inductive reading : Type :=
| RUndefined
| RNull
| RNum (n : number).

(** A timestamp entry: a JSON string, [null] or [undefined]. *)
Inductive stamp : Type :=
| SUndefined
| SNull
| SStr (s : string).

(** [ToNumber], which [Math.round] applies to its argument. *)
Definition ToNumber (r : reading) : number :=
  match r with
  | RUndefined => NaN
  | RNull => Fin 0
  | RNum n => n
  end.

Definition stampTruthy (t : stamp) : bool :=
  match t with
  | SStr s => negb (String.eqb s "")
  | _ => false
  end.

(** A series is a JSON array, or is missing ([None]); an object likewise. *)
Record CurrentRaw : Type := {
  current_temperature_2m : reading;
  current_relative_humidity_2m : reading;
  current_apparent_temperature : reading;
  current_weather_code : reading;
  current_surface_pressure : reading;
  current_wind_speed_10m : reading
}.

Record HourlyRaw : Type := {
  hourly_time : option (list stamp);
  hourly_temperature_2m : option (list reading)
}.

Record DailyRaw : Type := {
  daily_time : option (list stamp);
  daily_weather_code : option (list reading);
  daily_temperature_2m_max : option (list reading);
  daily_temperature_2m_min : option (list reading);
  daily_sunrise : option (list stamp);
  daily_sunset : option (list stamp);
  daily_uv_index_max : option (list reading)
}.

Record RawForecastPayload : Type := {
  raw_current : option CurrentRaw;
  raw_hourly : option HourlyRaw;
  raw_daily : option DailyRaw
}.

(** Reading a property of a missing object, or an index of a missing
    series, throws; an index past the end of an array is [undefined]. *)
Definition member {A} (o : option A) : result A :=
  match o with
  | Some a => Ok a
  | None => Throw (TypeError "Cannot read properties of undefined")
  end.

Definition readingAt (series : option (list reading)) (i : nat) : result reading :=
  match series with
  | Some l => Ok (nth i l RUndefined)
  | None => Throw (TypeError "Cannot read properties of undefined")
  end.

Definition stampAt (series : option (list stamp)) (i : nat) : result stamp :=
  match series with
  | Some l => Ok (nth i l SUndefined)
  | None => Throw (TypeError "Cannot read properties of undefined")
  end.

(** ** The entities of [types.ts] *)

Record DailyForecast : Type := {
  day : string;
  high : number;
  low : number;
  daily_condition : string
}.

Record HourlyForecast : Type := {
  time : string;
  temp : number
}.

Record WeatherData : Type := {
  city : value;
  country : string;
  currentTemp : number;
  condition : string;
  feelsLike : number;
  humidity : reading;
  windSpeed : number;
  pressure : number;
  uvIndex : number;
  sunrise : string;
  sunset : string;
  hourly : list HourlyForecast;
  daily : list DailyForecast;
  groundingSource : string
}.

Record CitySearchResult : Type := {
  name : value;
  location : string;
  lat : value;
  lng : value
}.

(** ** The host *)

(** A settled [fetch]: the promise rejects, or resolves to a response with
    its [ok] flag and what [json()] settles to. *)
Inductive fetched (B : Type) : Type :=
| Rejected (e : exn)
| Response (ok : bool) (json : result B).

Arguments Rejected {B} e.
Arguments Response {B} ok json.

(** What a request to the generative model interpolates in its prompt. *)
Inductive prompt : Type :=
| QuickPrompt (cond : string) (t : number) (c : value)
| DeepPrompt (w : WeatherData).

Record GenerateContentResponse : Type := {
  text : option string
}.

Record Host : Type := {
  (** [fetch] of a geocoding URL, and of a forecast URL. *)
  fetchJson : string -> fetched value;
  fetchForecast : string -> fetched RawForecastPayload;
  (** [new GoogleGenAI(...)] and [ai.models.generateContent]. *)
  newGoogleGenAI : result unit;
  generateContent : string -> prompt -> result GenerateContentResponse;
  (** [new Date().getHours()]. *)
  getHours : nat;
  (** Built-ins: their definition is the engine's. *)
  encodeURIComponent : string -> result string;
  hostToString : value -> result string;
  JSON_parse : string -> result value;
  (** [new Date(t).toLocaleTimeString([], {hour: 'numeric'})],
      [new Date(t).toLocaleDateString('en-US', {weekday: 'short'})] and
      [new Date(t).toLocaleTimeString([], {hour: '2-digit', minute: '2-digit'})]. *)
  formatHour : stamp -> string;
  formatWeekday : stamp -> string;
  formatClock : stamp -> string
}.

(** ** The monad of asynchronous functions *)

Inductive event : Type :=
| Fetch (url : string)
| Generate (model : string)
| ConsoleError (msg : string) (e : exn)
| UnhandledRejection (e : exn).

Definition M (A : Type) : Type := Host -> result A * list event.

Definition ret {A} (a : A) : M A := fun _ => (Ok a, []).

Definition throw {A} (e : exn) : M A := fun _ => (Throw e, []).

Definition bind {A B} (c : M A) (k : A -> M B) : M B :=
  fun h =>
    match c h with
    | (Ok a, l1) => let (r, l2) := k a h in (r, (l1 ++ l2)%list)
    | (Throw e, l1) => (Throw e, l1)
    end.

Notation "x <- c ;; k" := (bind c (fun x => k))
  (at level 61, c at next level, right associativity).
Notation "c ;;; k" := (bind c (fun _ => k))
  (at level 61, right associativity).

(** [try { c } catch (e) { handler e }]. *)
Definition tryCatch {A} (c : M A) (handler : exn -> M A) : M A :=
  fun h =>
    match c h with
    | (Ok a, l1) => (Ok a, l1)
    | (Throw e, l1) => let (r, l2) := handler e h in (r, (l1 ++ l2)%list)
    end.

Definition lift {A} (r : result A) : M A := fun _ => (r, []).

Definition ask {A} (f : Host -> A) : M A := fun h => (Ok (f h), []).

Definition askResult {A} (f : Host -> result A) : M A := fun h => (f h, []).

Definition emit (e : event) : M unit := fun _ => (Ok tt, [e]).

Fixpoint mapM {A B} (f : A -> M B) (l : list A) : M (list B) :=
  match l with
  | [] => ret []
  | x :: r => y <- f x ;; ys <- mapM f r ;; ret (y :: ys)
  end.

(** [await fetch(url)] followed by the caller's use of the response. *)
Definition awaitFetch {B} (oracle : Host -> string -> fetched B) (url : string)
  : M (bool * result B) :=
  emit (Fetch url) ;;;
  (fun h =>
     match oracle h url with
     | Rejected e => (Throw e, [])
     | Response ok body => (Ok (ok, body), [])
     end).

(** ** geminiService.ts *)

Definition wmoTable : list (Z * string) :=
  [ (0, "Clear Sky");
    (1, "Mainly Clear"); (2, "Partly Cloudy"); (3, "Overcast");
    (45, "Fog"); (48, "Depositing Rime Fog");
    (51, "Light Drizzle"); (53, "Moderate Drizzle"); (55, "Dense Drizzle");
    (56, "Light Freezing Drizzle"); (57, "Dense Freezing Drizzle");
    (61, "Slight Rain"); (63, "Moderate Rain"); (65, "Heavy Rain");
    (66, "Light Freezing Rain"); (67, "Heavy Freezing Rain");
    (71, "Slight Snow"); (73, "Moderate Snow"); (75, "Heavy Snow");
    (77, "Snow Grains");
    (80, "Slight Rain Showers"); (81, "Moderate Rain Showers");
    (82, "Violent Rain Showers");
    (85, "Slight Snow Showers"); (86, "Heavy Snow Showers");
    (95, "Thunderstorm"); (96, "Thunderstorm with Hail");
    (99, "Heavy Thunderstorm with Hail") ]%Z.

Fixpoint lookupCode (z : Z) (table : list (Z * string)) : option string :=
  match table with
  | [] => None
  | (k, label) :: r => if Z.eqb z k then Some label else lookupCode z r
  end.

(** [map[code] || "Unknown"]: only an integer key of the table is found. *)
Definition wmoToCondition (code : reading) : string :=
  match code with
  | RNum (Fin q) =>
      if Pos.eqb (Qden (Qred q)) 1 then
        match lookupCode (Qnum (Qred q)) wmoTable with
        | Some label => label
        | None => "Unknown"
        end
      else "Unknown"
  | _ => "Unknown"
  end.

(** [String(v)] in a template literal. *)
Definition ToString (v : value) : M string :=
  match v with
  | VStr s => ret s
  | VUndefined => ret "undefined"
  | VNull => ret "null"
  | VBool true => ret "true"
  | VBool false => ret "false"
  | _ => askResult (fun h => hostToString h v)
  end.

Definition geocodingUrl (encoded : string) : string :=
  "https://geocoding-api.open-meteo.com/v1/search?name=" ++ encoded
  ++ "&count=5&language=en&format=json".

Arguments geocodingUrl : simpl never.

(** The callback of [data.results.map]. *)
Definition searchCity_item (item : value) : M CitySearchResult :=
  nm <- lift (getProp item "name") ;;
  admin1 <- lift (getProp item "admin1") ;;
  a <- ToString (if truthy admin1 then admin1 else VStr "") ;;
  ctry <- lift (getProp item "country") ;;
  c <- ToString ctry ;;
  la <- lift (getProp item "latitude") ;;
  lo <- lift (getProp item "longitude") ;;
  ret {| name := nm; location := a ++ ", " ++ c; lat := la; lng := lo |}.

(** The length of the query is that of the Rocq string, which is
    [query.length] on ASCII text. *)
Definition searchCity (query : string) : M (list CitySearchResult) :=
  if (String.eqb query "" || Nat.ltb (String.length query) 2)%bool then ret []
  else
    tryCatch
      (encoded <- askResult (fun h => encodeURIComponent h query) ;;
       res <- awaitFetch fetchJson (geocodingUrl encoded) ;;
       data <- lift (snd res) ;;
       results <- lift (getProp data "results") ;;
       if negb (truthy results) then ret []
       else
         match results with
         | VArr items => mapM searchCity_item items
         | _ => throw (TypeError "data.results.map is not a function")
         end)
      (fun e => emit (ConsoleError "Geocoding failed" e) ;;; ret []).

(** Sequencing of calls that may throw, outside the monad. *)
Definition bindR {A B} (r : result A) (k : A -> result B) : result B :=
  match r with
  | Ok a => k a
  | Throw e => Throw e
  end.

Notation "'let?' x ':=' r 'in' k" := (bindR r (fun x => k))
  (at level 10, x name, r at level 100, k at level 200).

(** *** getWeatherData, step 1: the coordinates *)

Record ResolvedLocation : Type := {
  latitude : value;
  longitude : value;
  displayName : value;
  region : string
}.

(** The place-name search, which the source writes out in both of its
    [else] branches. *)
Definition getWeatherData_search (locationInput : string) : M ResolvedLocation :=
  searchRes <- searchCity locationInput ;;
  match searchRes with
  | [] => throw (Error "City not found")
  | first :: _ =>
      ret {| latitude := lat first; longitude := lng first;
             displayName := name first; region := location first |}
  end.

Definition getWeatherData_resolve (locationInput : string) : M ResolvedLocation :=
  if includes locationInput "," then
    let parts := map trim (split comma locationInput) in
    let p0 := nth 0 parts "" in
    let p1 := nth 1 parts "" in
    if (negb (isNaN (parseFloat p0)) && negb (isNaN (parseFloat p1)))%bool then
      ret {| latitude := VNum (parseFloat p0); longitude := VNum (parseFloat p1);
             displayName := VStr "Current Location"; region := "" |}
    else getWeatherData_search locationInput
  else getWeatherData_search locationInput.

(** *** getWeatherData, step 2: the request *)

(** [v.toString()]. *)
Definition toStringMethod (v : value) : M string :=
  match v with
  | VUndefined | VNull => throw (TypeError "Cannot read properties")
  | _ => ToString v
  end.

(** The URL that [URLSearchParams] serialises; the two coordinates are
    written as their strings, which is what the serialisation gives for
    plain decimal numbers (it percent-encodes other characters, such as
    the plus sign of an exponent). *)
Definition forecastUrl (la lo : string) : string :=
  "https://api.open-meteo.com/v1/forecast?latitude=" ++ la
  ++ "&longitude=" ++ lo
  ++ "&current=temperature_2m%2Crelative_humidity_2m%2Capparent_temperature%2Cis_day%2Cprecipitation%2Crain%2Cshowers%2Csnowfall%2Cweather_code%2Csurface_pressure%2Cwind_speed_10m"
  ++ "&hourly=temperature_2m%2Cweather_code"
  ++ "&daily=weather_code%2Ctemperature_2m_max%2Ctemperature_2m_min%2Csunrise%2Csunset%2Cuv_index_max"
  ++ "&timezone=auto&forecast_days=6".

Arguments forecastUrl : simpl never.

(** *** getWeatherData, step 3: the internal format *)

(** [for (let i = start; i < start + 24; i++)], with [n] iterations left. *)
Fixpoint hourlyLoop (h : Host) (hr : option HourlyRaw) (i n : nat)
  : result (list HourlyForecast) :=
  match n with
  | O => Ok []
  | S n' =>
      let? o := member hr in
      let? t := stampAt (hourly_time o) i in
      if stampTruthy t then
        let? x := readingAt (hourly_temperature_2m o) i in
        let? rest := hourlyLoop h hr (S i) n' in
        Ok ({| time := formatHour h t; temp := Math_round (ToNumber x) |} :: rest)
      else hourlyLoop h hr (S i) n'
  end.

(** [for (let i = 0; i < 5; i++)], with [n] iterations left. *)
Fixpoint dailyLoop (h : Host) (dr : option DailyRaw) (i n : nat)
  : result (list DailyForecast) :=
  match n with
  | O => Ok []
  | S n' =>
      let? o := member dr in
      let? t := stampAt (daily_time o) i in
      let? hi := readingAt (daily_temperature_2m_max o) i in
      let? lo := readingAt (daily_temperature_2m_min o) i in
      let? code := readingAt (daily_weather_code o) i in
      let? rest := dailyLoop h dr (S i) n' in
      Ok ({| day := formatWeekday h t;
             high := Math_round (ToNumber hi);
             low := Math_round (ToNumber lo);
             daily_condition := wmoToCondition code |} :: rest)
  end.

Definition getWeatherData_normalize (h : Host) (data : RawForecastPayload)
  (cityName : value) (countryName : string) : result WeatherData :=
  let current := raw_current data in
  let hourlyRaw := raw_hourly data in
  let dailyRaw := raw_daily data in
  let currentHourIndex := getHours h in
  let? hourlyForecast := hourlyLoop h hourlyRaw currentHourIndex 24 in
  let? dailyForecast := dailyLoop h dailyRaw 0 5 in
  let? d := member dailyRaw in
  let? rise := stampAt (daily_sunrise d) 0 in
  let? set := stampAt (daily_sunset d) 0 in
  let? c := member current in
  let? uv := readingAt (daily_uv_index_max d) 0 in
  Ok {| city := cityName;
        country := countryName;
        currentTemp := Math_round (ToNumber (current_temperature_2m c));
        condition := wmoToCondition (current_weather_code c);
        feelsLike := Math_round (ToNumber (current_apparent_temperature c));
        humidity := current_relative_humidity_2m c;
        windSpeed := Math_round (ToNumber (current_wind_speed_10m c));
        pressure := Math_round (ToNumber (current_surface_pressure c));
        uvIndex := Math_round (ToNumber uv);
        sunrise := formatClock h rise;
        sunset := formatClock h set;
        hourly := hourlyForecast;
        daily := dailyForecast;
        groundingSource := "Open-Meteo (National Weather Services)" |}.

Definition getWeatherData_fetch (loc : ResolvedLocation) : M WeatherData :=
  la <- toStringMethod (latitude loc) ;;
  lo <- toStringMethod (longitude loc) ;;
  tryCatch
    (res <- awaitFetch fetchForecast (forecastUrl la lo) ;;
     if negb (fst res) then throw (Error "Weather API Error")
     else
       data <- lift (snd res) ;;
       askResult (fun h =>
         getWeatherData_normalize h data (displayName loc) (region loc)))
    (fun e => emit (ConsoleError "Fetch weather error" e) ;;; throw e).

Definition getWeatherData (locationInput : string) : M WeatherData :=
  loc <- getWeatherData_resolve locationInput ;;
  getWeatherData_fetch loc.

(** *** The two requests to the generative model *)

Definition orElse (t : option string) (fallback : string) : string :=
  match t with
  | Some s => if String.eqb s "" then fallback else s
  | None => fallback
  end.

Definition getDeepAnalysis (weather : WeatherData) : M value :=
  askResult newGoogleGenAI ;;;
  emit (Generate "gemini-3-pro-preview") ;;;
  response <- askResult (fun h =>
    generateContent h "gemini-3-pro-preview" (DeepPrompt weather)) ;;
  askResult (fun h => JSON_parse h (orElse (text response) "{}")).

Definition getQuickSummary (weather : WeatherData) : M string :=
  askResult newGoogleGenAI ;;;
  emit (Generate "gemini-3-flash-preview") ;;;
  response <- askResult (fun h =>
    generateContent h "gemini-3-flash-preview"
      (QuickPrompt (condition weather) (currentTemp weather) (city weather))) ;;
  ret (orElse (text response) "").

(** ** App.tsx *)

(** The state of the [App] component, one field per [useState]; [analysis]
    holds [VNull] for [null]. *)
Record AppState : Type := {
  query : string;
  suggestions : list CitySearchResult;
  weather : option WeatherData;
  loading : bool;
  aiLoading : bool;
  analysis : value;
  quickSummary : string;
  theme : string;
  isNightMode : bool;
  favorites : list string;
  showFavorites : bool;
  error : option string
}.

Definition initialState : AppState :=
  {| query := ""; suggestions := []; weather := None; loading := false;
     aiLoading := false; analysis := VNull; quickSummary := "";
     theme := "from-sky-200 via-blue-100 to-white"; isNightMode := false;
     favorites := []; showFavorites := false; error := None |}.

Definition setQuery (x : string) (s : AppState) : AppState :=
  {| query := x; suggestions := suggestions s; weather := weather s;
     loading := loading s; aiLoading := aiLoading s;
     analysis := analysis s; quickSummary := quickSummary s;
     theme := theme s; isNightMode := isNightMode s;
     favorites := favorites s; showFavorites := showFavorites s;
     error := error s |}.

Definition setSuggestions (x : list CitySearchResult) (s : AppState) : AppState :=
  {| query := query s; suggestions := x; weather := weather s;
     loading := loading s; aiLoading := aiLoading s;
     analysis := analysis s; quickSummary := quickSummary s;
     theme := theme s; isNightMode := isNightMode s;
     favorites := favorites s; showFavorites := showFavorites s;
     error := error s |}.

Definition setWeather (x : option WeatherData) (s : AppState) : AppState :=
  {| query := query s; suggestions := suggestions s; weather := x;
     loading := loading s; aiLoading := aiLoading s;
     analysis := analysis s; quickSummary := quickSummary s;
     theme := theme s; isNightMode := isNightMode s;
     favorites := favorites s; showFavorites := showFavorites s;
     error := error s |}.

Definition setLoading (x : bool) (s : AppState) : AppState :=
  {| query := query s; suggestions := suggestions s;
     weather := weather s; loading := x; aiLoading := aiLoading s;
     analysis := analysis s; quickSummary := quickSummary s;
     theme := theme s; isNightMode := isNightMode s;
     favorites := favorites s; showFavorites := showFavorites s;
     error := error s |}.

Definition setAiLoading (x : bool) (s : AppState) : AppState :=
  {| query := query s; suggestions := suggestions s;
     weather := weather s; loading := loading s; aiLoading := x;
     analysis := analysis s; quickSummary := quickSummary s;
     theme := theme s; isNightMode := isNightMode s;
     favorites := favorites s; showFavorites := showFavorites s;
     error := error s |}.

Definition setAnalysis (x : value) (s : AppState) : AppState :=
  {| query := query s; suggestions := suggestions s;
     weather := weather s; loading := loading s;
     aiLoading := aiLoading s; analysis := x;
     quickSummary := quickSummary s; theme := theme s;
     isNightMode := isNightMode s; favorites := favorites s;
     showFavorites := showFavorites s; error := error s |}.

Definition setQuickSummary (x : string) (s : AppState) : AppState :=
  {| query := query s; suggestions := suggestions s;
     weather := weather s; loading := loading s;
     aiLoading := aiLoading s; analysis := analysis s;
     quickSummary := x; theme := theme s; isNightMode := isNightMode s;
     favorites := favorites s; showFavorites := showFavorites s;
     error := error s |}.

Definition setTheme (x : string) (s : AppState) : AppState :=
  {| query := query s; suggestions := suggestions s;
     weather := weather s; loading := loading s;
     aiLoading := aiLoading s; analysis := analysis s;
     quickSummary := quickSummary s; theme := x;
     isNightMode := isNightMode s; favorites := favorites s;
     showFavorites := showFavorites s; error := error s |}.

Definition setIsNightMode (x : bool) (s : AppState) : AppState :=
  {| query := query s; suggestions := suggestions s;
     weather := weather s; loading := loading s;
     aiLoading := aiLoading s; analysis := analysis s;
     quickSummary := quickSummary s; theme := theme s; isNightMode := x;
     favorites := favorites s; showFavorites := showFavorites s;
     error := error s |}.

Definition setError (x : option string) (s : AppState) : AppState :=
  {| query := query s; suggestions := suggestions s;
     weather := weather s; loading := loading s;
     aiLoading := aiLoading s; analysis := analysis s;
     quickSummary := quickSummary s; theme := theme s;
     isNightMode := isNightMode s; favorites := favorites s;
     showFavorites := showFavorites s; error := x |}.

Definition updateTheme (cond : string) (isNight : bool) (s : AppState) : AppState :=
  let s := setIsNightMode isNight s in
  let c := toLowerCase cond in
  if isNight then setTheme "from-slate-900 to-indigo-950" s
  else if (includes c "rain" || includes c "drizzle")%bool
    then setTheme "from-blue-200 via-slate-200 to-gray-100" s
  else if (includes c "storm" || includes c "thunder")%bool
    then setTheme "from-slate-400 via-slate-300 to-gray-200" s
  else if (includes c "cloud" || includes c "overcast")%bool
    then setTheme "from-slate-200 via-gray-100 to-white" s
  else if (includes c "snow" || includes c "ice")%bool
    then setTheme "from-blue-50 via-indigo-50 to-white" s
  else if (includes c "fog" || includes c "mist")%bool
    then setTheme "from-gray-200 via-slate-100 to-white" s
  else setTheme "from-sky-200 via-blue-100 to-white" s.

(** A call of an asynchronous function that is not awaited: what it does
    before it settles is done now, and how it settles is kept as a value. *)
Definition spawn {A} (c : M A) : M (result A) :=
  fun h => let (r, l) := c h in (Ok r, l).

(** [fetchWeather], up to the end of its [finally]: the new state, and the
    promise of [getQuickSummary] when the call was reached. *)
Definition fetchWeather (loc : string) (s : AppState)
  : M (AppState * option (result string)) :=
  let s := setLoading true s in
  let s := setError None s in
  let s := setAnalysis VNull s in
  let s := setSuggestions [] s in
  let s := setQuery "" s in
  out <- tryCatch
    (data <- getWeatherData loc ;;
     let s := setWeather (Some data) s in
     currentHour <- ask getHours ;;
     let nightTime := (Nat.ltb currentHour 6 || Nat.ltb 20 currentHour)%bool in
     let s := updateTheme (condition data) nightTime s in
     summary <- spawn (getQuickSummary data) ;;
     ret (s, Some summary))
    (fun _ =>
       ret (setError (Some "Failed to fetch weather. Please try again.") s, None)) ;;
  ret (setLoading false (fst out), snd out).

(** [.then(setQuickSummary)] on the promise, in the state the component has
    when the promise settles: a fulfilled promise sets the summary, a
    rejected one has no handler. *)
Definition thenSetQuickSummary (p : result string) (s : AppState)
  : AppState * list event :=
  match p with
  | Ok t => (setQuickSummary t s, [])
  | Throw e => (s, [UnhandledRejection e])
  end.

Definition handleDeepAnalysis (s : AppState) : M AppState :=
  match weather s with
  | None => ret s
  | Some w =>
      let s := setAiLoading true s in
      s' <- tryCatch
        (r <- getDeepAnalysis w ;; ret (setAnalysis r s))
        (fun e => emit (ConsoleError "" e) ;;; ret s) ;;
      ret (setAiLoading false s')
  end.

(** *** The other handlers of the component *)

Definition setFavorites (x : list string) (s : AppState) : AppState :=
  {| query := query s; suggestions := suggestions s; weather := weather s;
     loading := loading s; aiLoading := aiLoading s;
     analysis := analysis s; quickSummary := quickSummary s;
     theme := theme s; isNightMode := isNightMode s;
     favorites := x; showFavorites := showFavorites s;
     error := error s |}.

(** [saveFavorite] and [removeFavorite]: the new state, and the array that
    is stringified into the local storage under the key [favorites]. *)
Definition saveFavorite (c : string) (s : AppState) : AppState * list string :=
  let newFavs := (favorites s ++ [c])%list in
  (setFavorites newFavs s, newFavs).

Definition removeFavorite (c : string) (s : AppState) : AppState * list string :=
  let newFavs := filter (fun x => negb (String.eqb x c)) (favorites s) in
  (setFavorites newFavs s, newFavs).

(** The [onClick] of the heart button, [c] being [weather.city]:
    [favorites.includes(c) ? removeFavorite(c) : saveFavorite(c)]. *)
Definition heartOnClick (c : string) (s : AppState) : AppState * list string :=
  if existsb (String.eqb c) (favorites s) then removeFavorite c s
  else saveFavorite c s.

(** [handleSearchChange], [val] being [e.target.value]. *)
Definition handleSearchChange (val : string) (s : AppState) : M AppState :=
  let s := setQuery val s in
  if Nat.ltb 2 (String.length val) then
    results <- searchCity val ;;
    ret (setSuggestions results s)
  else ret (setSuggestions [] s).

(** What [navigator.geolocation] does when asked for the position: it is
    missing, it calls the error callback, or it calls the success callback
    with the two coordinates. *)
Inductive geolocation : Type :=
| GeoUnavailable
| GeoError
| GeoPosition (la lo : number).

(** [handleGeoLocation], with what the browser answers. *)
Definition handleGeoLocation (geo : geolocation) (s : AppState)
  : M (AppState * option (result string)) :=
  match geo with
  | GeoUnavailable => ret (s, None)
  | GeoError =>
      let s := setLoading true s in
      let s := setError (Some "Location access denied.") s in
      ret (setLoading false s, None)
  | GeoPosition la lo =>
      let s := setLoading true s in
      a <- ToString (VNum la) ;;
      b <- ToString (VNum lo) ;;
      fetchWeather (a ++ ", " ++ b) s
  end.

(** ** WeatherIcon.tsx *)

Inductive lucideIcon : Type :=
| CloudLightning
| CloudSnow
| CloudRain
| CloudDrizzle
| CloudFog
| Cloud
| Wind
| Moon
| Sun.

(** The element that the component returns: the icon, its [className] and
    its inline [animationDuration] when it has one. *)
Record iconElement : Type := {
  glyph : lucideIcon;
  iconClass : string;
  animationDuration : option string
}.

Definition WeatherIcon (cond : string) (className : string) (isNight : bool)
  : iconElement :=
  let lowerCondition := toLowerCase cond in
  let snowColor := if isNight then "text-white" else "text-sky-400" in
  let rainColor := if isNight then "text-blue-200" else "text-blue-500" in
  let cloudColor := if isNight then "text-gray-200" else "text-slate-400" in
  let windColor := if isNight then "text-gray-300" else "text-slate-500" in
  if (includes lowerCondition "storm" || includes lowerCondition "thunder")%bool then
    {| glyph := CloudLightning;
       iconClass := className ++ " text-yellow-400 animate-pulse";
       animationDuration := None |}
  else if (includes lowerCondition "snow" || includes lowerCondition "ice"
           || includes lowerCondition "flurry")%bool then
    {| glyph := CloudSnow;
       iconClass := className ++ " " ++ snowColor ++ " animate-bounce";
       animationDuration := Some "3s" |}
  else if (includes lowerCondition "rain" || includes lowerCondition "shower")%bool then
    {| glyph := CloudRain;
       iconClass := className ++ " " ++ rainColor;
       animationDuration := None |}
  else if includes lowerCondition "drizzle" then
    {| glyph := CloudDrizzle;
       iconClass := className ++ " " ++ rainColor;
       animationDuration := None |}
  else if (includes lowerCondition "fog" || includes lowerCondition "mist"
           || includes lowerCondition "haze")%bool then
    {| glyph := CloudFog;
       iconClass := className ++ " " ++ cloudColor;
       animationDuration := None |}
  else if (includes lowerCondition "cloud" || includes lowerCondition "overcast")%bool then
    {| glyph := Cloud;
       iconClass := className ++ " " ++ cloudColor;
       animationDuration := None |}
  else if includes lowerCondition "wind" then
    {| glyph := Wind;
       iconClass := className ++ " " ++ windColor;
       animationDuration := None |}
  else if isNight then
    {| glyph := Moon;
       iconClass := className ++ " text-yellow-100";
       animationDuration := None |}
  else
    {| glyph := Sun;
       iconClass := className ++ " text-orange-400 animate-[spin_10s_linear_infinite]";
       animationDuration := None |}.

(** ** Hosts to run the program on *)

Definition showNat (n : nat) : string :=
  NilZero.string_of_uint (Nat.to_uint n).

(** A number with two decimals, which is how the coordinates below print. *)
Definition twoDecimals (q : Q) : string :=
  let hundredths := Z.to_nat (Qfloor (Qabs q * 100 + (1 # 2))) in
  let frac := Nat.modulo hundredths 100 in
  (if (Qnum q <? 0)%Z then "-" else "")
  ++ showNat (Nat.div hundredths 100) ++ "."
  ++ (if Nat.ltb frac 10 then "0" else "") ++ showNat frac.

(** No network, no model: every request fails.  Its [JSON.parse] knows the
    empty object and rejects the malformed texts it is given here; its
    [encodeURIComponent] is exact on letters and digits. *)
Definition offlineHost : Host :=
  {| fetchJson := fun _ => Rejected (TypeError "Failed to fetch");
     fetchForecast := fun _ => Rejected (TypeError "Failed to fetch");
     newGoogleGenAI := Ok tt;
     generateContent := fun _ _ => Throw (Error "503 Service Unavailable");
     getHours := 10;
     encodeURIComponent := fun s => Ok s;
     hostToString := fun v =>
       match v with
       | VNum (Fin q) => Ok (twoDecimals q)
       | _ => Ok "[object Object]"
       end;
     JSON_parse := fun s =>
       if String.eqb s "{}" then Ok (VObj [])
       else Throw (SyntaxError "Unexpected token");
     formatHour := fun t => match t with SStr s => s | _ => "Invalid Date" end;
     formatWeekday := fun t => match t with SStr s => s | _ => "Invalid Date" end;
     formatClock := fun t => match t with SStr s => s | _ => "Invalid Date" end |}.

Definition withFetchJson (f : string -> fetched value) (h : Host) : Host :=
  {| fetchJson := f; fetchForecast := fetchForecast h;
     newGoogleGenAI := newGoogleGenAI h; generateContent := generateContent h;
     getHours := getHours h; encodeURIComponent := encodeURIComponent h;
     hostToString := hostToString h; JSON_parse := JSON_parse h;
     formatHour := formatHour h; formatWeekday := formatWeekday h;
     formatClock := formatClock h |}.

Definition withFetchForecast (f : string -> fetched RawForecastPayload) (h : Host) : Host :=
  {| fetchJson := fetchJson h; fetchForecast := f;
     newGoogleGenAI := newGoogleGenAI h; generateContent := generateContent h;
     getHours := getHours h; encodeURIComponent := encodeURIComponent h;
     hostToString := hostToString h; JSON_parse := JSON_parse h;
     formatHour := formatHour h; formatWeekday := formatWeekday h;
     formatClock := formatClock h |}.

Definition withGenerateContent
  (g : string -> prompt -> result GenerateContentResponse) (h : Host) : Host :=
  {| fetchJson := fetchJson h; fetchForecast := fetchForecast h;
     newGoogleGenAI := newGoogleGenAI h; generateContent := g;
     getHours := getHours h; encodeURIComponent := encodeURIComponent h;
     hostToString := hostToString h; JSON_parse := JSON_parse h;
     formatHour := formatHour h; formatWeekday := formatWeekday h;
     formatClock := formatClock h |}.

Definition withHours (k : nat) (h : Host) : Host :=
  {| fetchJson := fetchJson h; fetchForecast := fetchForecast h;
     newGoogleGenAI := newGoogleGenAI h; generateContent := generateContent h;
     getHours := k; encodeURIComponent := encodeURIComponent h;
     hostToString := hostToString h; JSON_parse := JSON_parse h;
     formatHour := formatHour h; formatWeekday := formatWeekday h;
     formatClock := formatClock h |}.

(** A geocoding answer with one candidate. *)
Definition tokyoCandidate : value :=
  VObj [ ("name", VStr "Tokyo"); ("admin1", VStr "Tokyo");
         ("country", VStr "Japan");
         ("latitude", VNum (Fin (3569 # 100)));
         ("longitude", VNum (Fin (13969 # 100))) ].

Definition tokyoGeocoding : string -> fetched value :=
  fun _ => Response true (Ok (VObj [ ("results", VArr [tokyoCandidate]) ])).

(** A geocoding answer for a name nobody bears: no [results] key. *)
Definition emptyGeocoding : string -> fetched value :=
  fun _ => Response true (Ok (VObj [ ("generationtime_ms", VNum (Fin (1 # 2))) ])).

(** Hourly series of [hours] entries and daily series of [days] entries. *)
Definition sampleHourly (hours : nat) : HourlyRaw :=
  {| hourly_time := Some (repeat (SStr "2025-06-01T00:00") hours);
     hourly_temperature_2m := Some (repeat (RNum (Fin (431 # 20))) hours) |}.

Definition sampleDaily (days : nat) : DailyRaw :=
  {| daily_time := Some (repeat (SStr "2025-06-01") days);
     daily_weather_code := Some (repeat (RNum (Fin 3)) days);
     daily_temperature_2m_max := Some (repeat (RNum (Fin (247 # 10))) days);
     daily_temperature_2m_min := Some (repeat (RNum (Fin (152 # 10))) days);
     daily_sunrise := Some (repeat (SStr "2025-06-01T04:26") days);
     daily_sunset := Some (repeat (SStr "2025-06-01T18:51") days);
     daily_uv_index_max := Some (repeat (RNum (Fin (665 # 100))) days) |}.

(** A forecast answer with these series and the given humidity reading. *)
Definition samplePayload (hum : reading) (hours days : nat) : RawForecastPayload :=
  {| raw_current := Some
       {| current_temperature_2m := RNum (Fin (216 # 10));
          current_relative_humidity_2m := hum;
          current_apparent_temperature := RNum (Fin (205 # 10));
          current_weather_code := RNum (Fin 61);
          current_surface_pressure := RNum (Fin (10132 # 10));
          current_wind_speed_10m := RNum (Fin (74 # 10)) |};
     raw_hourly := Some (sampleHourly hours);
     raw_daily := Some (sampleDaily days) |}.

(** A body that is JSON but carries none of the three objects. *)
Definition barePayload : RawForecastPayload :=
  {| raw_current := None; raw_hourly := None; raw_daily := None |}.

(** Geocoding and forecast answer; the generative model is down. *)
Definition tokyoHost : Host :=
  withFetchForecast
    (fun _ => Response true (Ok (samplePayload (RNum (Fin 55)) 30 6)))
    (withFetchJson tokyoGeocoding offlineHost).

(** The generative model answers the deep analysis with an empty object. *)
Definition emptyAnalysisHost : Host :=
  withGenerateContent (fun _ _ => Ok {| text := Some "{}" |}) tokyoHost.

(** The generative model answers with text that is not JSON. *)
Definition malformedAnalysisHost : Host :=
  withGenerateContent (fun _ _ => Ok {| text := Some "Sure! Here is" |}) tokyoHost.

Definition sampleWeather : WeatherData :=
  {| city := VStr "Tokyo";
     country := "Tokyo, Japan";
     currentTemp := Fin 22;
     condition := "Slight Rain";
     feelsLike := Fin 21;
     humidity := RNum (Fin 55);
     windSpeed := Fin 7;
     pressure := Fin 1013;
     uvIndex := Fin 7;
     sunrise := "2025-06-01T04:26";
     sunset := "2025-06-01T18:51";
     hourly := repeat {| time := "2025-06-01T00:00"; temp := Fin 22 |} 20;
     daily := repeat {| day := "2025-06-01"; high := Fin 25; low := Fin 15;
                        daily_condition := "Overcast" |} 5;
     groundingSource := "Open-Meteo (National Weather Services)" |}.

(** The component after an earlier query, whose summary is on display. *)
Definition earlierState : AppState :=
  setQuickSummary "Clear skies, zero excuses to stay in."
    (setWeather (Some sampleWeather) initialState).

(** A geocoding answer whose candidate has a name and a country only. *)
Definition atlantisCandidate : value :=
  VObj [ ("name", VStr "Atlantis"); ("country", VStr "Nowhere") ].

Definition atlantisGeocoding : string -> fetched value :=
  fun _ => Response true (Ok (VObj [ ("results", VArr [atlantisCandidate]) ])).

(** A geocoding answer with a [null] among its candidates. *)
Definition holedGeocoding : string -> fetched value :=
  fun _ => Response true
    (Ok (VObj [ ("results", VArr [tokyoCandidate; VNull; atlantisCandidate]) ])).

(** A geocoding answer with two candidates. *)
Definition twoGeocoding : string -> fetched value :=
  fun _ => Response true
    (Ok (VObj [ ("results", VArr [tokyoCandidate; atlantisCandidate]) ])).

(** The client cannot be created (no API key in a browser). *)
Definition keylessHost : Host :=
  {| fetchJson := fetchJson tokyoHost; fetchForecast := fetchForecast tokyoHost;
     newGoogleGenAI := Throw (Error "An API Key must be set");
     generateContent := fun _ _ => Ok {| text := Some "Bring a coat." |};
     getHours := getHours tokyoHost;
     encodeURIComponent := encodeURIComponent tokyoHost;
     hostToString := hostToString tokyoHost; JSON_parse := JSON_parse tokyoHost;
     formatHour := formatHour tokyoHost; formatWeekday := formatWeekday tokyoHost;
     formatClock := formatClock tokyoHost |}.

(** The generative model answers without text. *)
Definition silentHost : Host :=
  withGenerateContent (fun _ _ => Ok {| text := None |}) tokyoHost.

(** The component with two saved places. *)
Definition savedState : AppState :=
  setFavorites ["Tokyo"; "Paris"] earlierState.

(** The generative model answers the deep analysis with the text [42],
    which is JSON but no object. *)
Definition numberAnalysisHost : Host :=
  {| fetchJson := fetchJson tokyoHost; fetchForecast := fetchForecast tokyoHost;
     newGoogleGenAI := Ok tt;
     generateContent := fun _ _ => Ok {| text := Some "42" |};
     getHours := getHours tokyoHost;
     encodeURIComponent := encodeURIComponent tokyoHost;
     hostToString := hostToString tokyoHost;
     JSON_parse := fun s =>
       if String.eqb s "42" then Ok (VNum (Fin 42)) else JSON_parse tokyoHost s;
     formatHour := formatHour tokyoHost; formatWeekday := formatWeekday tokyoHost;
     formatClock := formatClock tokyoHost |}.

(** Thirty hourly timestamps and no temperature at all. *)
Definition stampsOnlyHourly : HourlyRaw :=
  {| hourly_time := Some (repeat (SStr "2025-06-01T00:00") 30);
     hourly_temperature_2m := Some [] |}.

(** ** Vocabulary of the statements *)

Local Open Scope nat_scope.
Unset Implicit Arguments.

(** The [k]-th comma-separated segment of the input, trimmed. *)
Definition segment (k : nat) (input : string) : string :=
  nth k (map trim (split comma input)) "".

(** The test of [getWeatherData] for a raw coordinate pair. *)
Definition isCoordinatePair (input : string) : bool :=
  (includes input ","
   && (negb (isNaN (parseFloat (segment 0 input)))
       && negb (isNaN (parseFloat (segment 1 input)))))%bool.

Definition resolvedFrom (c : CitySearchResult) : ResolvedLocation :=
  {| latitude := lat c; longitude := lng c;
     displayName := name c; region := location c |}.

(** The entry that the hourly loop pushes for index [i]. *)
Definition hourlyEntry (h : Host) (ts : list stamp) (xs : list reading) (i : nat)
  : HourlyForecast :=
  {| time := formatHour h (nth i ts SUndefined);
     temp := Math_round (ToNumber (nth i xs RUndefined)) |}.

(** The indices of the window whose timestamp is truthy. *)
Definition hourlyIndices (ts : list stamp) (start n : nat) : list nat :=
  filter (fun j => stampTruthy (nth j ts SUndefined)) (seq start n).

(** The entry that the daily loop pushes for index [i]. *)
Definition dailyEntry (h : Host) (ts : list stamp) (his los codes : list reading)
  (i : nat) : DailyForecast :=
  {| day := formatWeekday h (nth i ts SUndefined);
     high := Math_round (ToNumber (nth i his RUndefined));
     low := Math_round (ToNumber (nth i los RUndefined));
     daily_condition := wmoToCondition (nth i codes RUndefined) |}.

Definition present {A} (o : option A) : bool :=
  match o with Some _ => true | None => false end.

(** The three objects of the payload and the series that the normaliser
    reads are there, whatever their lengths. *)
Definition seriesPresent (data : RawForecastPayload) : bool :=
  match raw_current data, raw_hourly data, raw_daily data with
  | Some _, Some hr, Some dr =>
      (present (hourly_time hr) && present (hourly_temperature_2m hr)
       && present (daily_time dr) && present (daily_weather_code dr)
       && present (daily_temperature_2m_max dr)
       && present (daily_temperature_2m_min dr)
       && present (daily_sunrise dr) && present (daily_sunset dr)
       && present (daily_uv_index_max dr))%bool
  | _, _, _ => false
  end.

(** [n] is what [Math.round] makes of [x]: for a finite [x] the integer
    nearest to it, a tie going up; NaN and the infinities stay. *)
Definition nearestInteger (x n : number) : Prop :=
  match x with
  | Fin q =>
      exists z : Z,
        n = numOfZ z /\ isInteger n = true /\
        (inject_Z z - (1 # 2) <= q)%Q /\ (q < inject_Z z + (1 # 2))%Q
  | _ => n = x
  end.


(** The hourly timestamps of a payload, empty when they are missing. *)
Definition hourlyTimes (data : RawForecastPayload) : list stamp :=
  match raw_hourly data with
  | Some hr => match hourly_time hr with Some ts => ts | None => [] end
  | None => []
  end.

(** The daily timestamps of a payload, empty when they are missing. *)
Definition dailyTimes (data : RawForecastPayload) : list stamp :=
  match raw_daily data with
  | Some dr => match daily_time dr with Some ts => ts | None => [] end
  | None => []
  end.

(** A candidate of the geocoding answer whose region and country are
    strings, or are missing. *)
Definition plainCandidate (fields : list (string * value)) : bool :=
  match lookupField "admin1" fields, lookupField "country" fields with
  | (VStr _ | VUndefined), (VStr _ | VUndefined) => true
  | _, _ => false
  end.

(** What the search makes of such a candidate. *)
Definition candidateOf (fields : list (string * value)) : CitySearchResult :=
  {| name := lookupField "name" fields;
     location :=
       match lookupField "admin1" fields with VStr a => a | _ => "" end
       ++ ", "
       ++ match lookupField "country" fields with
          | VStr c => c
          | _ => "undefined"
          end;
     lat := lookupField "latitude" fields;
     lng := lookupField "longitude" fields |}.

Definition isFetch (e : event) : bool :=
  match e with Fetch _ => true | _ => false end.

(** The other series of a payload, empty when they are missing. *)
Definition hourlyTemps (data : RawForecastPayload) : list reading :=
  match raw_hourly data with
  | Some hr =>
      match hourly_temperature_2m hr with Some xs => xs | None => [] end
  | None => []
  end.

Definition dailyHighs (data : RawForecastPayload) : list reading :=
  match raw_daily data with
  | Some dr =>
      match daily_temperature_2m_max dr with Some xs => xs | None => [] end
  | None => []
  end.

Definition dailyLows (data : RawForecastPayload) : list reading :=
  match raw_daily data with
  | Some dr =>
      match daily_temperature_2m_min dr with Some xs => xs | None => [] end
  | None => []
  end.

Definition dailyCodes (data : RawForecastPayload) : list reading :=
  match raw_daily data with
  | Some dr => match daily_weather_code dr with Some xs => xs | None => [] end
  | None => []
  end.

(** Following the words of the specification, not the code: a text that
    is a floating-point number from its first character to its last (an
    optional sign, digits with an optional fraction, an optional
    exponent). *)
Definition specExponentOnly (l : list ascii) : bool :=
  match l with
  | [] => true
  | c :: r =>
      if (Ascii.eqb c "e" || Ascii.eqb c "E")%bool then
        let r' :=
          match r with
          | sg :: t =>
              if (Ascii.eqb sg "-" || Ascii.eqb sg "+")%bool then t else r
          | [] => r
          end in
        let (ds, rest) := span isDigit r' in
        match ds, rest with
        | _ :: _, [] => true
        | _, _ => false
        end
      else false
  end.

Definition specFloatChars (l : list ascii) : bool :=
  let l1 :=
    match l with
    | sg :: t => if (Ascii.eqb sg "-" || Ascii.eqb sg "+")%bool then t else l
    | [] => l
    end in
  let (ip, r1) := span isDigit l1 in
  let (fp, r2) :=
    match r1 with
    | d :: t => if Ascii.eqb d "." then span isDigit t else ([], r1)
    | [] => ([], r1)
    end in
  match (ip ++ fp)%list with
  | [] => false
  | _ => specExponentOnly r2
  end.

Definition specFloatText (s : string) : bool :=
  specFloatChars (list_ascii_of_string s).

(** Following the words of the specification: an input of the form
    ["<float>, <float>"], two comma-separated segments that are both
    floating-point numbers. *)
Definition specCoordinatePair (input : string) : bool :=
  match map trim (split comma input) with
  | [a; b] => (specFloatText a && specFloatText b)%bool
  | _ => false
  end.

(** * Properties *)

(** ** The monad *)

(** Runs a computation as far as its constructors allow. *)
Ltac run :=
  cbv beta iota zeta
    delta [tryCatch bind askResult ask awaitFetch emit lift ret throw spawn
           fst snd];
  simpl app.

Lemma tryCatch_handler_ok {A} (c : M A) (handler : exn -> M A) (h : Host) :
  (forall e, exists a l, handler e h = (Ok a, l)) ->
  exists a l, tryCatch c handler h = (Ok a, l).
Proof.
  intros Hh. unfold tryCatch.
  destruct (c h) as [[a | e] l1].
  - now exists a, l1.
  - destruct (Hh e) as (a & l2 & ->). now exists a, (l1 ++ l2)%list.
Qed.

Lemma short_query_guard (q : string) :
  2 <= String.length q ->
  (String.eqb q "" || Nat.ltb (String.length q) 2)%bool = false.
Proof.
  intros Hlen. apply Bool.orb_false_iff. split.
  - destruct q; [simpl in Hlen; lia | reflexivity].
  - apply Nat.ltb_ge. exact Hlen.
Qed.

(** ** searchCity *)

Lemma searchCity_never_throws (q : string) (h : Host) :
  exists l log, searchCity q h = (Ok l, log).
Proof.
  unfold searchCity.
  destruct (String.eqb q "" || Nat.ltb (String.length q) 2)%bool.
  - now exists [], [].
  - apply tryCatch_handler_ok. intros e. now eexists _, _.
Qed.

Lemma searchCity_short (q : string) (h : Host) :
  String.length q < 2 -> searchCity q h = (Ok [], []).
Proof.
  intros Hlen. unfold searchCity.
  replace (Nat.ltb (String.length q) 2) with true
    by (symmetry; now apply Nat.ltb_lt).
  now rewrite Bool.orb_true_r.
Qed.

Lemma searchCity_rejected (q enc : string) (e : exn) (h : Host) :
  2 <= String.length q ->
  encodeURIComponent h q = Ok enc ->
  fetchJson h (geocodingUrl enc) = Rejected e ->
  searchCity q h =
    (Ok [], [Fetch (geocodingUrl enc); ConsoleError "Geocoding failed" e]).
Proof.
  intros Hlen Henc Hf. unfold searchCity.
  rewrite (short_query_guard _ Hlen).
  run. rewrite Henc. run. rewrite Hf. reflexivity.
Qed.

Lemma searchCity_bad_body (q enc : string) (ok : bool) (e : exn) (h : Host) :
  2 <= String.length q ->
  encodeURIComponent h q = Ok enc ->
  fetchJson h (geocodingUrl enc) = Response ok (Throw e) ->
  searchCity q h =
    (Ok [], [Fetch (geocodingUrl enc); ConsoleError "Geocoding failed" e]).
Proof.
  intros Hlen Henc Hf. unfold searchCity.
  rewrite (short_query_guard _ Hlen).
  run. rewrite Henc. run. rewrite Hf. reflexivity.
Qed.

Lemma searchCity_no_results (q enc : string) (ok : bool) (data r : value) (h : Host) :
  2 <= String.length q ->
  encodeURIComponent h q = Ok enc ->
  fetchJson h (geocodingUrl enc) = Response ok (Ok data) ->
  getProp data "results" = Ok r ->
  truthy r = false ->
  searchCity q h = (Ok [], [Fetch (geocodingUrl enc)]).
Proof.
  intros Hlen Henc Hf Hr Ht. unfold searchCity.
  rewrite (short_query_guard _ Hlen).
  run. rewrite Henc. run. rewrite Hf. run. rewrite Hr. run.
  rewrite Ht. reflexivity.
Qed.


(** ** getWeatherData, step 1 *)

Lemma resolve_not_pair (input : string) :
  isCoordinatePair input = false ->
  getWeatherData_resolve input = getWeatherData_search input.
Proof.
  unfold isCoordinatePair, getWeatherData_resolve, segment. intros Hp.
  destruct (includes input ","); [| reflexivity].
  simpl in Hp. now rewrite Hp.
Qed.

Lemma search_outcome (input : string) (h : Host) (cs : list CitySearchResult)
  (log : list event) :
  searchCity input h = (Ok cs, log) ->
  getWeatherData_search input h =
    (match cs with
     | [] => Throw (Error "City not found")
     | first :: _ => Ok (resolvedFrom first)
     end, log).
Proof.
  intros Hs. unfold getWeatherData_search, bind. rewrite Hs.
  destruct cs; simpl; now rewrite app_nil_r.
Qed.

Lemma searchCity_not_array (q enc : string) (ok : bool) (data : value) (h : Host) :
  2 <= String.length q ->
  encodeURIComponent h q = Ok enc ->
  fetchJson h (geocodingUrl enc) = Response ok (Ok data) ->
  (forall items, getProp data "results" <> Ok (VArr items)) ->
  fst (searchCity q h) = Ok [].
Proof.
  intros Hlen Henc Hf Hr. unfold searchCity.
  rewrite (short_query_guard _ Hlen).
  run. rewrite Henc. run. rewrite Hf. run.
  destruct (getProp data "results") as [r | e]; run; [| reflexivity].
  destruct r; try reflexivity;
    try (match goal with
         | |- context [if ?c then _ else _] => now destruct c
         end).
  now elim (Hr items).
Qed.

Lemma searchCity_bad_query (q : string) (e : exn) (h : Host) :
  2 <= String.length q ->
  encodeURIComponent h q = Throw e ->
  searchCity q h = (Ok [], [ConsoleError "Geocoding failed" e]).
Proof.
  intros Hlen Henc. unfold searchCity.
  rewrite (short_query_guard _ Hlen).
  run. rewrite Henc. reflexivity.
Qed.

(** C6.  An input with a comma whose first two comma-separated segments,
    trimmed, both parse as floating-point numbers is resolved without any
    geocoding call (the log of calls is empty): the display name is
    ["Current Location"] and the coordinates are the two parsed numbers. *)
Theorem coordinate_pair_skips_geocoding (input : string) (h : Host) :
  includes input "," = true ->
  isNaN (parseFloat (segment 0 input)) = false ->
  isNaN (parseFloat (segment 1 input)) = false ->
  getWeatherData_resolve input h =
    (Ok {| latitude := VNum (parseFloat (segment 0 input));
           longitude := VNum (parseFloat (segment 1 input));
           displayName := VStr "Current Location";
           region := "" |},
     []).
Proof.
  intros Hc H0 H1. unfold getWeatherData_resolve.
  rewrite Hc. fold (segment 0 input). fold (segment 1 input).
  now rewrite H0, H1.
Qed.

Lemma coordinate_pair_skips_geocoding_new_york :
  includes "40.71, -74.01" "," = true /\
  isNaN (parseFloat (segment 0 "40.71, -74.01")) = false /\
  isNaN (parseFloat (segment 1 "40.71, -74.01")) = false /\
  getWeatherData_resolve "40.71, -74.01" offlineHost =
    (Ok {| latitude := VNum (Fin (4071 # 100));
           longitude := VNum (Fin (- 7401 # 100));
           displayName := VStr "Current Location";
           region := "" |},
     []).
Proof.
  split; [reflexivity |]. split; [reflexivity |]. split; [reflexivity |].
  exact (coordinate_pair_skips_geocoding "40.71, -74.01" offlineHost
           eq_refl eq_refl eq_refl).
Defined.




(** The form that the specification names passes, and a place name does
    not. *)
Example spec_pairs :
  specCoordinatePair "40.71, -74.01" = true /\
  specCoordinatePair "Paris, France" = false /\
  specCoordinatePair "1, 2, 3" = false /\
  isCoordinatePair "1, 2, 3" = true.
Proof. repeat split. Qed.

(** C10.  The city search never throws.  It answers the empty list for a
    query of fewer than two characters, for a response without a [results]
    array, for a rejected request, for a body that is not JSON and for a
    query that cannot be encoded; and whenever it answers the empty list
    the resolver fails with the same ["City not found"] error, whatever
    the cause. *)
Theorem searchCity_outage_is_no_match (q : string) (h : Host) :
  (exists l log, searchCity q h = (Ok l, log)) /\
  (String.length q < 2 -> searchCity q h = (Ok [], [])) /\
  (2 <= String.length q ->
     (forall e, encodeURIComponent h q = Throw e ->
        fst (searchCity q h) = Ok []) /\
     (forall enc, encodeURIComponent h q = Ok enc ->
        (forall e, fetchJson h (geocodingUrl enc) = Rejected e ->
           fst (searchCity q h) = Ok []) /\
        (forall ok e, fetchJson h (geocodingUrl enc) = Response ok (Throw e) ->
           fst (searchCity q h) = Ok []) /\
        (forall ok data,
           fetchJson h (geocodingUrl enc) = Response ok (Ok data) ->
           (forall items, getProp data "results" <> Ok (VArr items)) ->
           fst (searchCity q h) = Ok []))) /\
  (isCoordinatePair q = false ->
   fst (searchCity q h) = Ok [] ->
   fst (getWeatherData_resolve q h) = Throw (Error "City not found")).
Proof.
  split; [apply searchCity_never_throws |].
  split; [apply searchCity_short |].
  split.
  - intros Hlen. split.
    + intros e He. now rewrite (searchCity_bad_query _ _ _ Hlen He).
    + intros enc Henc. repeat split.
      * intros e Hf. now rewrite (searchCity_rejected _ _ _ _ Hlen Henc Hf).
      * intros ok e Hf. now rewrite (searchCity_bad_body _ _ _ _ _ Hlen Henc Hf).
      * intros ok data Hf Hr. exact (searchCity_not_array _ _ _ _ _ Hlen Henc Hf Hr).
  - intros Hp Hs. rewrite (resolve_not_pair _ Hp).
    destruct (searchCity q h) as [r log] eqn:E. simpl in Hs. subst r.
    now rewrite (search_outcome _ _ _ _ E).
Qed.

(** An outage and a name nobody bears end in the same error. *)
Example outage_and_no_match :
  fst (getWeatherData_resolve "Xyzzy" offlineHost)
    = Throw (Error "City not found") /\
  fst (getWeatherData_resolve "Xyzzy" (withFetchJson emptyGeocoding offlineHost))
    = Throw (Error "City not found").
Proof. split; reflexivity. Qed.

(** ** Math.round *)

Lemma isInteger_numOfZ (z : Z) : isInteger (numOfZ z) = true.
Proof.
  unfold isInteger, numOfZ, inject_Z, Qred.
  generalize (Z.ggcd_gcd z 1) (Z.ggcd_correct_divisors z 1).
  destruct (Z.ggcd z 1) as [g [aa bb]]. simpl.
  rewrite Z.gcd_1_r. intros Hg [_ Hb]. subst g.
  replace bb with 1%Z by lia. reflexivity.
Qed.

Lemma Math_round_nearest (x : number) : nearestInteger x (Math_round x).
Proof.
  destruct x as [| | | q]; try reflexivity.
  simpl. exists (Qfloor (q + (1 # 2))).
  split; [reflexivity |]. split; [apply isInteger_numOfZ |].
  generalize (Qfloor_le (q + (1 # 2))) (Qlt_floor (q + (1 # 2))).
  rewrite inject_Z_plus. change (inject_Z 1) with 1%Q.
  generalize (inject_Z (Qfloor (q + (1 # 2)))). intros f Hle Hlt.
  split; lra.
Qed.

(** ** The hourly window *)

Lemma truthy_in_range (ts : list stamp) (j : nat) :
  stampTruthy (nth j ts SUndefined) = true -> j < List.length ts.
Proof.
  intros Ht. destruct (Nat.lt_ge_cases j (List.length ts)) as [Hlt | Hge];
    [exact Hlt |].
  rewrite (nth_overflow ts SUndefined Hge) in Ht. discriminate.
Qed.

Lemma hourlyLoop_spec (h : Host) (o : HourlyRaw) (ts : list stamp)
  (xs : list reading) :
  hourly_time o = Some ts ->
  hourly_temperature_2m o = Some xs ->
  forall n i,
    hourlyLoop h (Some o) i n
      = Ok (map (hourlyEntry h ts xs) (hourlyIndices ts i n)).
Proof.
  intros Ht Hx. induction n as [| n IH]; intros i; [reflexivity |].
  unfold hourlyIndices. simpl. rewrite Ht. simpl.
  destruct (stampTruthy (nth i ts SUndefined)).
  - rewrite Hx. simpl. rewrite IH. reflexivity.
  - apply IH.
Qed.

Lemma hourlyIndices_in_range (ts : list stamp) (n start : nat) :
  Forall (fun j => start <= j < start + n /\ j < List.length ts)
         (hourlyIndices ts start n).
Proof.
  apply Forall_forall. intros j Hj.
  apply filter_In in Hj. destruct Hj as [Hseq Ht].
  apply in_seq in Hseq. split; [exact Hseq | now apply truthy_in_range].
Qed.

Lemma hourlyIndices_length (ts : list stamp) (n start : nat) :
  List.length (hourlyIndices ts start n)
    <= Nat.min n (List.length ts - start).
Proof.
  revert start. induction n as [| n IH]; intros start; [simpl; lia |].
  change (hourlyIndices ts start (S n))
    with (if stampTruthy (nth start ts SUndefined)
          then start :: hourlyIndices ts (S start) n
          else hourlyIndices ts (S start) n).
  specialize (IH (S start)).
  destruct (stampTruthy (nth start ts SUndefined)) eqn:Ht.
  - apply truthy_in_range in Ht.
    change (S (List.length (hourlyIndices ts (S start) n))
            <= Nat.min (S n) (List.length ts - start)).
    lia.
  - lia.
Qed.

Lemma hourlyIndices_all_truthy (ts : list stamp) (n start : nat) :
  (forall t, In t ts -> stampTruthy t = true) ->
  hourlyIndices ts start n
    = seq start (Nat.min n (List.length ts - start)).
Proof.
  intros Hall. revert start. induction n as [| n IH]; intros start;
    [reflexivity |].
  change (hourlyIndices ts start (S n))
    with (if stampTruthy (nth start ts SUndefined)
          then start :: hourlyIndices ts (S start) n
          else hourlyIndices ts (S start) n).
  rewrite (IH (S start)).
  destruct (Nat.lt_ge_cases start (List.length ts)) as [Hlt | Hge].
  - rewrite (Hall _ (nth_In ts SUndefined Hlt)).
    replace (Nat.min (S n) (List.length ts - start))
      with (S (Nat.min n (List.length ts - S start))) by lia.
    reflexivity.
  - rewrite (nth_overflow ts SUndefined Hge). cbn [stampTruthy].
    replace (Nat.min n (List.length ts - S start)) with 0 by lia.
    replace (Nat.min (S n) (List.length ts - start)) with 0 by lia.
    reflexivity.
Qed.

(** C3, as the code has it.  Whatever the hourly series and the starting
    index, the hourly window is one entry for each index of the 24 from
    the start at which the timestamp is truthy, in order.  So it has at
    most 24 entries, none of them from an index past the end of the time
    series, and at most as many as that series has from the start on:
    [min(24, max(0, len(source) - start))], the difference itself being
    negative when the start lies past the end.  The temperature is read
    at the same index without a guard: past the end of the temperature
    series the entry is there all the same, with NaN. *)
Theorem hourly_window_bounded (h : Host) (o : HourlyRaw) (ts : list stamp)
  (xs : list reading) (start : nat) :
  hourly_time o = Some ts ->
  hourly_temperature_2m o = Some xs ->
  exists result : list HourlyForecast,
    hourlyLoop h (Some o) start 24 = Ok result /\
    result = map (hourlyEntry h ts xs) (hourlyIndices ts start 24) /\
    List.length result <= 24 /\
    (Z.of_nat (List.length result)
     <= Z.min 24 (Z.max 0 (Z.of_nat (List.length ts) - Z.of_nat start)))%Z /\
    Forall (fun j => start <= j < start + 24 /\ j < List.length ts)
           (hourlyIndices ts start 24) /\
    (forall j, start <= j < start + 24 ->
       (In j (hourlyIndices ts start 24)
        <-> stampTruthy (nth j ts SUndefined) = true)) /\
    (forall j, In j (hourlyIndices ts start 24) -> List.length xs <= j ->
       temp (hourlyEntry h ts xs j) = NaN).
Proof.
  intros Ht Hx.
  exists (map (hourlyEntry h ts xs) (hourlyIndices ts start 24)).
  generalize (hourlyIndices_length ts 24 start). intros Hlen.
  split; [now apply hourlyLoop_spec |].
  split; [reflexivity |].
  split; [rewrite length_map; lia |].
  split; [rewrite length_map; lia |].
  split; [apply hourlyIndices_in_range |].
  split.
  - intros j Hj. unfold hourlyIndices. rewrite filter_In, in_seq. tauto.
  - intros j _ Hj. unfold hourlyEntry. cbn [temp].
    now rewrite (nth_overflow xs RUndefined Hj).
Qed.

Lemma hourly_window_bounded_evening :
  hourly_time (sampleHourly 30) = Some (repeat (SStr "2025-06-01T00:00") 30) /\
  hourly_temperature_2m (sampleHourly 30)
    = Some (repeat (RNum (Fin (431 # 20))) 30) /\
  exists result : list HourlyForecast,
    hourlyLoop offlineHost (Some (sampleHourly 30)) 22 24 = Ok result /\
    result = repeat {| time := "2025-06-01T00:00"; temp := Fin 22 |} 8 /\
    List.length result <= 24 /\
    (Z.of_nat (List.length result)
     <= Z.min 24
          (Z.max 0 (Z.of_nat (List.length (repeat (SStr "2025-06-01T00:00") 30))
                    - Z.of_nat 22)))%Z /\
    Forall (fun j => 22 <= j < 22 + 24 /\
                     j < List.length (repeat (SStr "2025-06-01T00:00") 30))
           (hourlyIndices (repeat (SStr "2025-06-01T00:00") 30) 22 24) /\
    (forall j, 22 <= j < 22 + 24 ->
       (In j (hourlyIndices (repeat (SStr "2025-06-01T00:00") 30) 22 24)
        <-> stampTruthy (nth j (repeat (SStr "2025-06-01T00:00") 30) SUndefined)
            = true)) /\
    (forall j,
       In j (hourlyIndices (repeat (SStr "2025-06-01T00:00") 30) 22 24) ->
       List.length (repeat (RNum (Fin (431 # 20))) 30) <= j ->
       temp (hourlyEntry offlineHost (repeat (SStr "2025-06-01T00:00") 30)
               (repeat (RNum (Fin (431 # 20))) 30) j) = NaN).
Proof.
  split; [reflexivity |]. split; [reflexivity |].
  exact (hourly_window_bounded offlineHost (sampleHourly 30) _ _ 22
           eq_refl eq_refl).
Defined.

(** C3 as stated fails twice.  With twelve entries and the hour 23 the
    window is empty, and its length, 0, is not below [min(24, 12 - 23)],
    which is negative.  And the loop does read past the end of a series:
    with thirty timestamps and no temperature it makes eight entries at
    the hour 22, each from the [undefined] that it read. *)
Lemma hourly_window_reads_past_the_end :
  hourlyLoop offlineHost (Some (sampleHourly 12)) 23 24 = Ok [] /\
  ~ (Z.of_nat (List.length (@nil HourlyForecast))
     <= Z.min 24 (Z.of_nat (List.length (repeat (SStr "2025-06-01T00:00") 12))
                  - 23))%Z /\
  hourlyLoop offlineHost (Some stampsOnlyHourly) 22 24
    = Ok (repeat {| time := "2025-06-01T00:00"; temp := NaN |} 8).
Proof.
  split; [reflexivity |]. split; [| reflexivity].
  simpl. lia.
Qed.

(** ** The daily window *)

Lemma dailyLoop_spec (h : Host) (o : DailyRaw) (ts : list stamp)
  (his los codes : list reading) :
  daily_time o = Some ts ->
  daily_temperature_2m_max o = Some his ->
  daily_temperature_2m_min o = Some los ->
  daily_weather_code o = Some codes ->
  forall n i,
    dailyLoop h (Some o) i n = Ok (map (dailyEntry h ts his los codes) (seq i n)).
Proof.
  intros Ht Hh Hl Hc. induction n as [| n IH]; intros i; [reflexivity |].
  simpl. rewrite Ht, Hh, Hl, Hc. simpl. rewrite IH. reflexivity.
Qed.

(** ** The normaliser *)

Lemma normalize_inv (h : Host) (data : RawForecastPayload) (c : value)
  (r : string) (w : WeatherData) :
  getWeatherData_normalize h data c r = Ok w ->
  exists cur dr uvs,
    raw_current data = Some cur /\
    raw_daily data = Some dr /\
    daily_uv_index_max dr = Some uvs /\
    hourlyLoop h (raw_hourly data) (getHours h) 24 = Ok (hourly w) /\
    dailyLoop h (raw_daily data) 0 5 = Ok (daily w) /\
    currentTemp w = Math_round (ToNumber (current_temperature_2m cur)) /\
    feelsLike w = Math_round (ToNumber (current_apparent_temperature cur)) /\
    humidity w = current_relative_humidity_2m cur /\
    windSpeed w = Math_round (ToNumber (current_wind_speed_10m cur)) /\
    pressure w = Math_round (ToNumber (current_surface_pressure cur)) /\
    uvIndex w = Math_round (ToNumber (nth 0 uvs RUndefined)).
Proof.
  unfold getWeatherData_normalize. intros H.
  destruct (hourlyLoop h (raw_hourly data) (getHours h) 24) as [hs | e];
    [| discriminate].
  destruct (dailyLoop h (raw_daily data) 0 5) as [ds | e]; [| discriminate].
  destruct (raw_daily data) as [dr |]; [| discriminate].
  unfold bindR, member in H.
  destruct (stampAt (daily_sunrise dr) 0) as [rise | e]; [| discriminate].
  destruct (stampAt (daily_sunset dr) 0) as [set | e]; [| discriminate].
  destruct (raw_current data) as [cur |]; [| discriminate].
  destruct (daily_uv_index_max dr) as [uvs |] eqn:Huv; [| discriminate].
  simpl in H. injection H as <-. simpl.
  exists cur, dr, uvs. repeat split; first [reflexivity | assumption].
Qed.

Lemma normalize_spec (h : Host) (c : value) (r : string)
  (cur : CurrentRaw) (ts : list stamp) (xs : list reading)
  (dts : list stamp) (codes his los : list reading)
  (rises sets : list stamp) (uvs : list reading) :
  getWeatherData_normalize h
    {| raw_current := Some cur;
       raw_hourly := Some {| hourly_time := Some ts;
                             hourly_temperature_2m := Some xs |};
       raw_daily := Some {| daily_time := Some dts;
                            daily_weather_code := Some codes;
                            daily_temperature_2m_max := Some his;
                            daily_temperature_2m_min := Some los;
                            daily_sunrise := Some rises;
                            daily_sunset := Some sets;
                            daily_uv_index_max := Some uvs |} |} c r
  = Ok {| city := c;
          country := r;
          currentTemp := Math_round (ToNumber (current_temperature_2m cur));
          condition := wmoToCondition (current_weather_code cur);
          feelsLike := Math_round (ToNumber (current_apparent_temperature cur));
          humidity := current_relative_humidity_2m cur;
          windSpeed := Math_round (ToNumber (current_wind_speed_10m cur));
          pressure := Math_round (ToNumber (current_surface_pressure cur));
          uvIndex := Math_round (ToNumber (nth 0 uvs RUndefined));
          sunrise := formatClock h (nth 0 rises SUndefined);
          sunset := formatClock h (nth 0 sets SUndefined);
          hourly := map (hourlyEntry h ts xs) (hourlyIndices ts (getHours h) 24);
          daily := map (dailyEntry h dts his los codes) [0; 1; 2; 3; 4];
          groundingSource := "Open-Meteo (National Weather Services)" |}.
Proof.
  unfold getWeatherData_normalize.
  cbv beta iota zeta delta [raw_current raw_hourly raw_daily].
  erewrite hourlyLoop_spec by reflexivity.
  erewrite dailyLoop_spec by reflexivity.
  reflexivity.
Qed.

(** C4.  When the daily series has five entries or more, the daily window
    is the five entries built from the source indices 0 to 4, each day
    label formatted from an entry of the source; the hour at which the
    normaliser runs has no part in it. *)
Theorem daily_window_fixed (h : Host) (o : DailyRaw) (ts : list stamp)
  (his los codes : list reading) :
  daily_time o = Some ts ->
  daily_temperature_2m_max o = Some his ->
  daily_temperature_2m_min o = Some los ->
  daily_weather_code o = Some codes ->
  5 <= List.length ts ->
  (forall k,
     dailyLoop (withHours k h) (Some o) 0 5
       = Ok (map (dailyEntry h ts his los codes) [0; 1; 2; 3; 4])) /\
  (forall i, i < 5 ->
     exists t, nth_error ts i = Some t /\
               day (dailyEntry h ts his los codes i) = formatWeekday h t) /\
  (forall k data c r w,
     raw_daily data = Some o ->
     getWeatherData_normalize (withHours k h) data c r = Ok w ->
     daily w = map (dailyEntry h ts his los codes) [0; 1; 2; 3; 4]).
Proof.
  intros Ht Hh Hl Hc Hlen.
  assert (Hloop : forall k,
             dailyLoop (withHours k h) (Some o) 0 5
               = Ok (map (dailyEntry h ts his los codes) [0; 1; 2; 3; 4])).
  { intros k. now rewrite (dailyLoop_spec _ o ts his los codes Ht Hh Hl Hc). }
  split; [exact Hloop |]. split.
  - intros i Hi.
    destruct (nth_error ts i) as [t |] eqn:E.
    + exists t. split; [reflexivity |]. simpl.
      now rewrite (nth_error_nth ts i SUndefined E).
    + apply nth_error_None in E. lia.
  - intros k data c r w Hd Hw.
    apply normalize_inv in Hw.
    destruct Hw as (cur & dr & uvs & _ & _ & _ & _ & Hdaily & _).
    rewrite Hd, Hloop in Hdaily. now injection Hdaily.
Qed.

Lemma daily_window_fixed_six_days :
  daily_time (sampleDaily 6) = Some (repeat (SStr "2025-06-01") 6) /\
  5 <= List.length (repeat (SStr "2025-06-01") 6) /\
  forall k,
    dailyLoop (withHours k offlineHost) (Some (sampleDaily 6)) 0 5
      = Ok (map (dailyEntry offlineHost
                   (repeat (SStr "2025-06-01") 6)
                   (repeat (RNum (Fin (247 # 10))) 6)
                   (repeat (RNum (Fin (152 # 10))) 6)
                   (repeat (RNum (Fin 3)) 6)) [0; 1; 2; 3; 4]).
Proof.
  split; [reflexivity |]. split; [simpl; lia |].
  refine (proj1 (daily_window_fixed offlineHost (sampleDaily 6) _ _ _ _
                   eq_refl eq_refl eq_refl eq_refl _)).
  simpl. lia.
Defined.

(** C2, as the code has it.  When the three objects of the payload and the
    series that the normaliser reads are present, whatever their lengths,
    the normaliser does not throw and produces a WeatherData.  Its hourly
    series is one entry for each index of the 24 from the current hour at
    which the source has a truthy timestamp: with a source whose
    timestamps are all truthy, the entries of the source from the current
    hour on, 24 at most, so a short source cuts it.  Its daily series is
    not cut: it is the five entries built from the indices 0 to 4,
    whatever the length of the source. *)
Theorem normalize_total_when_series_present (h : Host)
  (data : RawForecastPayload) (c : value) (r : string) :
  seriesPresent data = true ->
  exists w,
    getWeatherData_normalize h data c r = Ok w /\
    hourly w
      = map (hourlyEntry h (hourlyTimes data) (hourlyTemps data))
          (hourlyIndices (hourlyTimes data) (getHours h) 24) /\
    List.length (hourly w)
      <= Nat.min 24 (List.length (hourlyTimes data) - getHours h) /\
    ((forall t, In t (hourlyTimes data) -> stampTruthy t = true) ->
     hourly w
       = map (hourlyEntry h (hourlyTimes data) (hourlyTemps data))
           (seq (getHours h)
              (Nat.min 24 (List.length (hourlyTimes data) - getHours h)))) /\
    daily w
      = map (dailyEntry h (dailyTimes data) (dailyHighs data)
               (dailyLows data) (dailyCodes data)) [0; 1; 2; 3; 4] /\
    List.length (daily w) = 5.
Proof.
  unfold seriesPresent. intros Hp.
  destruct data as [[cur |] [[[ts |] [xs |]] |]
                    [[[dts |] [codes |] [his |] [los |] [rises |] [sets |] [uvs |]] |]];
    try discriminate Hp.
  eexists. split; [apply normalize_spec |].
  cbn [hourly daily hourlyTimes hourlyTemps dailyTimes dailyHighs dailyLows
       dailyCodes raw_hourly raw_daily hourly_time hourly_temperature_2m
       daily_time daily_temperature_2m_max daily_temperature_2m_min
       daily_weather_code].
  split; [reflexivity |]. split.
  - rewrite length_map. apply hourlyIndices_length.
  - split; [| split; reflexivity].
    intros Hall. now rewrite (hourlyIndices_all_truthy ts 24 (getHours h) Hall).
Qed.

Lemma normalize_total_when_series_present_short :
  seriesPresent (samplePayload (RNum (Fin 55)) 12 3) = true /\
  exists w,
    getWeatherData_normalize offlineHost (samplePayload (RNum (Fin 55)) 12 3)
      (VStr "Tokyo") "Tokyo, Japan" = Ok w /\
    hourly w = repeat {| time := "2025-06-01T00:00"; temp := Fin 22 |} 2 /\
    List.length (hourly w)
      <= Nat.min 24
           (List.length (hourlyTimes (samplePayload (RNum (Fin 55)) 12 3))
            - getHours offlineHost) /\
    ((forall t, In t (hourlyTimes (samplePayload (RNum (Fin 55)) 12 3)) ->
                stampTruthy t = true) ->
     hourly w = repeat {| time := "2025-06-01T00:00"; temp := Fin 22 |} 2) /\
    daily w
      = map (dailyEntry offlineHost
               (dailyTimes (samplePayload (RNum (Fin 55)) 12 3))
               (dailyHighs (samplePayload (RNum (Fin 55)) 12 3))
               (dailyLows (samplePayload (RNum (Fin 55)) 12 3))
               (dailyCodes (samplePayload (RNum (Fin 55)) 12 3)))
          [0; 1; 2; 3; 4] /\
    List.length (daily w) = 5.
Proof.
  split; [reflexivity |].
  exact (normalize_total_when_series_present offlineHost
           (samplePayload (RNum (Fin 55)) 12 3) (VStr "Tokyo") "Tokyo, Japan"
           eq_refl).
Defined.

(** C2 as stated fails twice.  A body without the three objects makes the
    normaliser throw; and a daily series of three entries is not cut to
    three: the output has five, the last built from [undefined]. *)
Lemma normalize_throws_and_pads :
  getWeatherData_normalize offlineHost barePayload (VStr "Tokyo") "Tokyo, Japan"
    = Throw (TypeError "Cannot read properties of undefined") /\
  exists w,
    getWeatherData_normalize offlineHost (samplePayload (RNum (Fin 55)) 12 3)
      (VStr "Tokyo") "Tokyo, Japan" = Ok w /\
    List.length (dailyTimes (samplePayload (RNum (Fin 55)) 12 3)) = 3 /\
    List.length (daily w) = 5 /\
    nth_error (daily w) 4
      = Some {| day := "Invalid Date"; high := NaN; low := NaN;
                daily_condition := "Unknown" |}.
Proof.
  split; [reflexivity |].
  eexists. split; [reflexivity |]. repeat split.
Qed.

(** C5, as the code has it.  In every WeatherData that the normaliser
    produces, the current temperature, the feels-like temperature, the wind
    speed, the pressure and the UV index are [Math.round] of the payload's
    readings: the nearest integer when the reading is a finite number
    ([null] reads as 0), NaN when the reading is missing.  The humidity is
    the payload's reading, unchanged. *)
Theorem display_values_rounded (h : Host) (data : RawForecastPayload)
  (c : value) (r : string) (w : WeatherData) :
  getWeatherData_normalize h data c r = Ok w ->
  exists cur dr uvs,
    raw_current data = Some cur /\
    raw_daily data = Some dr /\
    daily_uv_index_max dr = Some uvs /\
    nearestInteger (ToNumber (current_temperature_2m cur)) (currentTemp w) /\
    nearestInteger (ToNumber (current_apparent_temperature cur)) (feelsLike w) /\
    nearestInteger (ToNumber (current_wind_speed_10m cur)) (windSpeed w) /\
    nearestInteger (ToNumber (current_surface_pressure cur)) (pressure w) /\
    nearestInteger (ToNumber (nth 0 uvs RUndefined)) (uvIndex w) /\
    humidity w = current_relative_humidity_2m cur.
Proof.
  intros Hw. apply normalize_inv in Hw.
  destruct Hw as (cur & dr & uvs & Hc & Hd & Hu & _ & _
                  & Ht & Hf & Hh & Hws & Hp & Huv).
  exists cur, dr, uvs.
  rewrite Ht, Hf, Hws, Hp, Huv.
  repeat split; try assumption; apply Math_round_nearest.
Qed.

Lemma display_values_rounded_sample :
  getWeatherData_normalize offlineHost (samplePayload (RNum (Fin 55)) 30 6)
    (VStr "Tokyo") "Tokyo, Japan"
  = Ok {| city := VStr "Tokyo";
          country := "Tokyo, Japan";
          currentTemp := Fin 22;
          condition := "Slight Rain";
          feelsLike := Fin 21;
          humidity := RNum (Fin 55);
          windSpeed := Fin 7;
          pressure := Fin 1013;
          uvIndex := Fin 7;
          sunrise := "2025-06-01T04:26";
          sunset := "2025-06-01T18:51";
          hourly := repeat {| time := "2025-06-01T00:00"; temp := Fin 22 |} 20;
          daily := repeat {| day := "2025-06-01"; high := Fin 25; low := Fin 15;
                             daily_condition := "Overcast" |} 5;
          groundingSource := "Open-Meteo (National Weather Services)" |} /\
  exists cur dr uvs,
    raw_current (samplePayload (RNum (Fin 55)) 30 6) = Some cur /\
    raw_daily (samplePayload (RNum (Fin 55)) 30 6) = Some dr /\
    daily_uv_index_max dr = Some uvs /\
    nearestInteger (ToNumber (current_temperature_2m cur)) (Fin 22) /\
    nearestInteger (ToNumber (current_apparent_temperature cur)) (Fin 21) /\
    nearestInteger (ToNumber (current_wind_speed_10m cur)) (Fin 7) /\
    nearestInteger (ToNumber (current_surface_pressure cur)) (Fin 1013) /\
    nearestInteger (ToNumber (nth 0 uvs RUndefined)) (Fin 7) /\
    RNum (Fin 55) = current_relative_humidity_2m cur.
Proof.
  split; [reflexivity |].
  exact (display_values_rounded offlineHost
           (samplePayload (RNum (Fin 55)) 30 6) (VStr "Tokyo") "Tokyo, Japan"
           _ eq_refl).
Defined.

(** C5 as stated fails on the humidity, which is not rounded, and on a
    missing reading, which rounds to NaN. *)
Lemma humidity_is_not_rounded :
  (exists w,
     getWeatherData_normalize offlineHost
       (samplePayload (RNum (Fin (111 # 2))) 30 6) (VStr "Tokyo") "Tokyo, Japan"
       = Ok w /\
     humidity w = RNum (Fin (111 # 2)) /\
     isInteger (Fin (111 # 2)) = false) /\
  (exists w,
     getWeatherData_normalize offlineHost
       (samplePayload (RNum (Fin 55)) 30 0) (VStr "Tokyo") "Tokyo, Japan"
       = Ok w /\
     uvIndex w = NaN /\
     isInteger (uvIndex w) = false).
Proof.
  split; eexists; (split; [reflexivity |]); split; reflexivity.
Qed.

(** ** The requests to the generative model *)

Lemma getDeepAnalysis_run (h : Host) (w : WeatherData)
  (resp : GenerateContentResponse) :
  newGoogleGenAI h = Ok tt ->
  generateContent h "gemini-3-pro-preview" (DeepPrompt w) = Ok resp ->
  getDeepAnalysis w h
    = (JSON_parse h (orElse (text resp) "{}"), [Generate "gemini-3-pro-preview"]).
Proof.
  intros Hai Hg. unfold getDeepAnalysis. run.
  rewrite Hai. run. rewrite Hg. run.
  now destruct (JSON_parse h (orElse (text resp) "{}")).
Qed.

Lemma getQuickSummary_rejects (h : Host) (w : WeatherData) (e : exn) :
  newGoogleGenAI h = Ok tt ->
  generateContent h "gemini-3-flash-preview"
    (QuickPrompt (condition w) (currentTemp w) (city w)) = Throw e ->
  getQuickSummary w h = (Throw e, [Generate "gemini-3-flash-preview"]).
Proof.
  intros Hai Hg. unfold getQuickSummary. run.
  rewrite Hai. run. now rewrite Hg.
Qed.

(** C1, as the code has it.  When the request for the quick summary fails,
    [getQuickSummary] rejects with the error of the request.  The caller
    does not await it: the snapshot flow ends with the weather stored, no
    error and the loading flag cleared, and the rejected promise leaves the
    summary on display as it was. *)
Theorem summary_failure_is_not_blocking (h : Host) (loc : string)
  (s : AppState) (data : WeatherData) (log : list event) (e : exn) :
  getWeatherData loc h = (Ok data, log) ->
  newGoogleGenAI h = Ok tt ->
  generateContent h "gemini-3-flash-preview"
    (QuickPrompt (condition data) (currentTemp data) (city data)) = Throw e ->
  getQuickSummary data h = (Throw e, [Generate "gemini-3-flash-preview"]) /\
  exists s',
    fetchWeather loc s h
      = (Ok (s', Some (Throw e)),
         (log ++ [Generate "gemini-3-flash-preview"])%list) /\
    weather s' = Some data /\
    error s' = None /\
    loading s' = false /\
    quickSummary s' = quickSummary s /\
    forall later,
      thenSetQuickSummary (Throw e) later = (later, [UnhandledRejection e]).
Proof.
  intros Hw Hai Hg.
  assert (Hq := getQuickSummary_rejects h data e Hai Hg).
  split; [exact Hq |].
  unfold fetchWeather. run. rewrite Hw. run. rewrite Hq. run.
  rewrite !app_nil_r.
  eexists. split; [reflexivity |].
  unfold updateTheme.
  repeat split;
    repeat match goal with
           | |- context [if ?c then _ else _] => destruct c
           end; reflexivity.
Qed.

Lemma summary_failure_is_not_blocking_tokyo :
  fst (getWeatherData "Tokyo" tokyoHost) = Ok sampleWeather /\
  getQuickSummary sampleWeather tokyoHost
    = (Throw (Error "503 Service Unavailable"),
       [Generate "gemini-3-flash-preview"]) /\
  exists s',
    fetchWeather "Tokyo" earlierState tokyoHost
      = (Ok (s', Some (Throw (Error "503 Service Unavailable"))),
         (snd (getWeatherData "Tokyo" tokyoHost)
          ++ [Generate "gemini-3-flash-preview"])%list) /\
    weather s' = Some sampleWeather /\
    error s' = None /\
    loading s' = false /\
    quickSummary s' = quickSummary earlierState /\
    forall later,
      thenSetQuickSummary (Throw (Error "503 Service Unavailable")) later
        = (later, [UnhandledRejection (Error "503 Service Unavailable")]).
Proof.
  split; [reflexivity |].
  exact (summary_failure_is_not_blocking tokyoHost "Tokyo" earlierState
           sampleWeather (snd (getWeatherData "Tokyo" tokyoHost))
           (Error "503 Service Unavailable") eq_refl eq_refl eq_refl).
Defined.

(** C1 as stated fails: with the model down, the summary that the caller is
    promised is an error, not the empty string, and after the promise has
    settled the summary on display is still the one of the earlier query. *)
Lemma summary_failure_is_an_error :
  fst (getQuickSummary sampleWeather tokyoHost)
    = Throw (Error "503 Service Unavailable") /\
  exists s',
    fst (fetchWeather "Tokyo" earlierState tokyoHost)
      = Ok (s', Some (Throw (Error "503 Service Unavailable"))) /\
    quickSummary
      (fst (thenSetQuickSummary (Throw (Error "503 Service Unavailable")) s'))
      = "Clear skies, zero excuses to stay in.".
Proof.
  split; [reflexivity |]. eexists. split; reflexivity.
Qed.

(** C8, as the code has it.  A response whose text parses as JSON makes the
    analysis succeed with the parsed value itself, which the caller stores
    as it is: a field is read from the result exactly as from the parsed
    value, so a missing field is [undefined]. *)
Theorem analysis_is_the_parsed_value (h : Host) (s : AppState)
  (w : WeatherData) (resp : GenerateContentResponse) (v : value) :
  weather s = Some w ->
  newGoogleGenAI h = Ok tt ->
  generateContent h "gemini-3-pro-preview" (DeepPrompt w) = Ok resp ->
  JSON_parse h (orElse (text resp) "{}") = Ok v ->
  getDeepAnalysis w h = (Ok v, [Generate "gemini-3-pro-preview"]) /\
  exists s',
    handleDeepAnalysis s h = (Ok s', [Generate "gemini-3-pro-preview"]) /\
    analysis s' = v /\
    aiLoading s' = false /\
    forall fields k,
      v = VObj fields -> getProp (analysis s') k = Ok (lookupField k fields).
Proof.
  intros Hw Hai Hg Hp.
  assert (Hd := getDeepAnalysis_run h w resp Hai Hg). rewrite Hp in Hd.
  split; [exact Hd |].
  unfold handleDeepAnalysis. rewrite Hw. run. rewrite Hd. run.
  eexists. split; [reflexivity |]. repeat split.
  intros fields k ->. reflexivity.
Qed.

Lemma analysis_is_the_parsed_value_empty_object :
  weather earlierState = Some sampleWeather /\
  JSON_parse emptyAnalysisHost "{}" = Ok (VObj []) /\
  getDeepAnalysis sampleWeather emptyAnalysisHost
    = (Ok (VObj []), [Generate "gemini-3-pro-preview"]) /\
  exists s',
    handleDeepAnalysis earlierState emptyAnalysisHost
      = (Ok s', [Generate "gemini-3-pro-preview"]) /\
    analysis s' = VObj [] /\
    aiLoading s' = false /\
    forall fields k,
      VObj [] = VObj fields -> getProp (analysis s') k = Ok (lookupField k fields).
Proof.
  split; [reflexivity |]. split; [reflexivity |].
  exact (analysis_is_the_parsed_value emptyAnalysisHost earlierState
           sampleWeather {| text := Some "{}" |} (VObj [])
           eq_refl eq_refl eq_refl eq_refl).
Defined.

(** C8 as stated fails: for a response that is the empty JSON object the
    analysis succeeds, and its three fields are [undefined], not empty
    strings. *)
Lemma missing_fields_are_undefined :
  fst (getDeepAnalysis sampleWeather emptyAnalysisHost) = Ok (VObj []) /\
  getProp (VObj []) "advice" = Ok VUndefined /\
  getProp (VObj []) "outfit" = Ok VUndefined /\
  getProp (VObj []) "details" = Ok VUndefined /\
  exists s',
    fst (handleDeepAnalysis earlierState emptyAnalysisHost) = Ok s' /\
    getProp (analysis s') "advice" = Ok VUndefined.
Proof.
  repeat split. eexists. split; reflexivity.
Qed.

(** C9, as the code has it.  The analysis is what [JSON.parse] makes of
    the text of the response.  When that text is not JSON, the analysis
    fails with the error of [JSON.parse]; the caller logs that error and
    returns normally, with the stored analysis as it was before the
    request (absent if it was absent) and the loading flag cleared.  When
    the text is JSON, of the expected shape or not, the analysis does not
    fail: the caller stores the parsed value and logs nothing. *)
Theorem malformed_analysis_leaves_panel (h : Host) (s : AppState)
  (w : WeatherData) (resp : GenerateContentResponse) :
  weather s = Some w ->
  newGoogleGenAI h = Ok tt ->
  generateContent h "gemini-3-pro-preview" (DeepPrompt w) = Ok resp ->
  getDeepAnalysis w h
    = (JSON_parse h (orElse (text resp) "{}"),
       [Generate "gemini-3-pro-preview"]) /\
  (forall e,
     JSON_parse h (orElse (text resp) "{}") = Throw e ->
     exists s',
       handleDeepAnalysis s h
         = (Ok s', [Generate "gemini-3-pro-preview"; ConsoleError "" e]) /\
       analysis s' = analysis s /\
       (analysis s = VNull -> analysis s' = VNull) /\
       aiLoading s' = false) /\
  (forall v,
     JSON_parse h (orElse (text resp) "{}") = Ok v ->
     exists s',
       handleDeepAnalysis s h = (Ok s', [Generate "gemini-3-pro-preview"]) /\
       analysis s' = v /\
       aiLoading s' = false).
Proof.
  intros Hw Hai Hg.
  assert (Hd := getDeepAnalysis_run h w resp Hai Hg).
  split; [exact Hd |]. split.
  - intros e Hp. rewrite Hp in Hd.
    unfold handleDeepAnalysis. rewrite Hw. run. rewrite Hd. run.
    eexists. split; [reflexivity |]. repeat split. intros Hn. exact Hn.
  - intros v Hp. rewrite Hp in Hd.
    unfold handleDeepAnalysis. rewrite Hw. run. rewrite Hd. run.
    eexists. split; [reflexivity |]. now split.
Qed.

Lemma malformed_analysis_leaves_panel_tokyo :
  weather earlierState = Some sampleWeather /\
  JSON_parse malformedAnalysisHost "Sure! Here is"
    = Throw (SyntaxError "Unexpected token") /\
  analysis earlierState = VNull /\
  getDeepAnalysis sampleWeather malformedAnalysisHost
    = (Throw (SyntaxError "Unexpected token"), [Generate "gemini-3-pro-preview"]) /\
  exists s',
    handleDeepAnalysis earlierState malformedAnalysisHost
      = (Ok s', [Generate "gemini-3-pro-preview";
                 ConsoleError "" (SyntaxError "Unexpected token")]) /\
    analysis s' = analysis earlierState /\
    (analysis earlierState = VNull -> analysis s' = VNull) /\
    aiLoading s' = false.
Proof.
  split; [reflexivity |]. split; [reflexivity |]. split; [reflexivity |].
  destruct (malformed_analysis_leaves_panel malformedAnalysisHost earlierState
              sampleWeather {| text := Some "Sure! Here is" |}
              eq_refl eq_refl eq_refl) as (Hrun & Hbad & _).
  split; [exact Hrun |].
  exact (Hbad (SyntaxError "Unexpected token") eq_refl).
Defined.

(** C9 as stated fails: the text [42] is JSON but not of the shape of the
    schema, and the analysis does not fail on it; the number is stored as
    the analysis, where none was stored before, and nothing is logged. *)
Lemma wrong_shape_is_stored :
  analysis earlierState = VNull /\
  getDeepAnalysis sampleWeather numberAnalysisHost
    = (Ok (VNum (Fin 42)), [Generate "gemini-3-pro-preview"]) /\
  exists s',
    handleDeepAnalysis earlierState numberAnalysisHost
      = (Ok s', [Generate "gemini-3-pro-preview"]) /\
    analysis s' = VNum (Fin 42).
Proof.
  split; [reflexivity |]. split; [reflexivity |].
  eexists. split; [vm_compute; reflexivity | reflexivity].
Qed.

(** * Further properties of the code *)

(** ** getWeatherData as a whole *)

Lemma normalize_present (h : Host) (data : RawForecastPayload) (c : value)
  (r : string) :
  seriesPresent data = true ->
  exists w,
    getWeatherData_normalize h data c r = Ok w /\
    city w = c /\ country w = r /\
    List.length (hourly w) <= 24 /\
    List.length (daily w) = 5.
Proof.
  unfold seriesPresent. intros Hp.
  destruct data as [[cur |] [[[ts |] [xs |]] |]
                    [[[dts |] [codes |] [his |] [los |] [rises |] [sets |] [uvs |]] |]];
    try discriminate Hp.
  eexists. split; [apply normalize_spec |].
  cbn [city country hourly daily]. repeat split.
  rewrite length_map.
  generalize (hourlyIndices_length ts 24 (getHours h)). lia.
Qed.

Lemma getWeatherData_fetch_ok (loc : ResolvedLocation) (h : Host)
  (la lo : string) (data : RawForecastPayload) (w : WeatherData) :
  toStringMethod (latitude loc) h = (Ok la, []) ->
  toStringMethod (longitude loc) h = (Ok lo, []) ->
  fetchForecast h (forecastUrl la lo) = Response true (Ok data) ->
  getWeatherData_normalize h data (displayName loc) (region loc) = Ok w ->
  getWeatherData_fetch loc h = (Ok w, [Fetch (forecastUrl la lo)]).
Proof.
  intros Hla Hlo Hf Hn. unfold getWeatherData_fetch. run.
  rewrite Hla. run. rewrite Hlo. run. rewrite Hf. run.
  cbn [negb]. cbv beta. rewrite Hn. reflexivity.
Qed.

(** X1.  A coordinate pair is served end to end by one request, the one
    for the forecast: when that request answers a payload with its series
    present, the snapshot is named ["Current Location"], has no country,
    five daily entries and at most 24 hourly ones. *)
Theorem coordinate_input_end_to_end (input : string) (h : Host)
  (la lo : string) (data : RawForecastPayload) :
  isCoordinatePair input = true ->
  hostToString h (VNum (parseFloat (segment 0 input))) = Ok la ->
  hostToString h (VNum (parseFloat (segment 1 input))) = Ok lo ->
  fetchForecast h (forecastUrl la lo) = Response true (Ok data) ->
  seriesPresent data = true ->
  exists w,
    getWeatherData input h = (Ok w, [Fetch (forecastUrl la lo)]) /\
    city w = VStr "Current Location" /\
    country w = "" /\
    List.length (daily w) = 5 /\
    List.length (hourly w) <= 24.
Proof.
  intros Hp Hla Hlo Hf Hs.
  destruct (normalize_present h data (VStr "Current Location") "" Hs)
    as (w & Hn & Hc & Hr & Hh & Hd).
  exists w. split; [| now repeat split].
  unfold getWeatherData, getWeatherData_resolve.
  unfold isCoordinatePair in Hp.
  apply Bool.andb_true_iff in Hp. destruct Hp as [Hc0 Hp].
  rewrite Hc0. fold (segment 0 input). fold (segment 1 input). rewrite Hp.
  unfold bind at 1. unfold ret at 1.
  rewrite (getWeatherData_fetch_ok _ h la lo data w); try assumption.
  - reflexivity.
  - simpl. unfold askResult. now rewrite Hla.
  - simpl. unfold askResult. now rewrite Hlo.
Qed.

Lemma coordinate_input_end_to_end_new_york :
  isCoordinatePair "40.71, -74.01" = true /\
  seriesPresent (samplePayload (RNum (Fin 55)) 30 6) = true /\
  exists w,
    getWeatherData "40.71, -74.01" tokyoHost
      = (Ok w, [Fetch (forecastUrl "40.71" "-74.01")]) /\
    city w = VStr "Current Location" /\
    country w = "" /\
    List.length (daily w) = 5 /\
    List.length (hourly w) <= 24.
Proof.
  split; [reflexivity |]. split; [reflexivity |].
  exact (coordinate_input_end_to_end "40.71, -74.01" tokyoHost
           "40.71" "-74.01" (samplePayload (RNum (Fin 55)) 30 6)
           eq_refl eq_refl eq_refl eq_refl eq_refl).
Defined.

(** X2.  A place name is served by the city search followed by one request
    for the forecast: the snapshot takes the name and the region of the
    first candidate, whatever the other candidates are. *)
Theorem place_name_end_to_end (input : string) (h : Host)
  (first : CitySearchResult) (others : list CitySearchResult)
  (log : list event) (la lo : string) (data : RawForecastPayload) :
  isCoordinatePair input = false ->
  searchCity input h = (Ok (first :: others), log) ->
  toStringMethod (lat first) h = (Ok la, []) ->
  toStringMethod (lng first) h = (Ok lo, []) ->
  fetchForecast h (forecastUrl la lo) = Response true (Ok data) ->
  seriesPresent data = true ->
  exists w,
    getWeatherData input h = (Ok w, (log ++ [Fetch (forecastUrl la lo)])%list) /\
    city w = name first /\
    country w = location first /\
    List.length (daily w) = 5 /\
    List.length (hourly w) <= 24.
Proof.
  intros Hp Hs Hla Hlo Hf Hd.
  destruct (normalize_present h data (name first) (location first) Hd)
    as (w & Hn & Hc & Hr & Hh & Hdl).
  exists w. split; [| now repeat split].
  unfold getWeatherData. rewrite (resolve_not_pair _ Hp).
  unfold bind at 1. rewrite (search_outcome _ _ _ _ Hs).
  rewrite (getWeatherData_fetch_ok (resolvedFrom first) h la lo data w);
    try assumption.
  reflexivity.
Qed.

Lemma place_name_end_to_end_tokyo :
  isCoordinatePair "Tokyo" = false /\
  exists w,
    getWeatherData "Tokyo" tokyoHost
      = (Ok w, ([Fetch (geocodingUrl "Tokyo")]
                ++ [Fetch (forecastUrl "35.69" "139.69")])%list) /\
    city w = VStr "Tokyo" /\
    country w = "Tokyo, Japan" /\
    List.length (daily w) = 5 /\
    List.length (hourly w) <= 24.
Proof.
  split; [reflexivity |].
  exact (place_name_end_to_end "Tokyo" tokyoHost
           {| name := VStr "Tokyo"; location := "Tokyo, Japan";
              lat := VNum (Fin (3569 # 100)); lng := VNum (Fin (13969 # 100)) |}
           [] [Fetch (geocodingUrl "Tokyo")] "35.69" "139.69"
           (samplePayload (RNum (Fin 55)) 30 6)
           eq_refl eq_refl eq_refl eq_refl eq_refl eq_refl).
Defined.

Lemma toStringMethod_missing (v : value) (h : Host) :
  v = VUndefined \/ v = VNull ->
  toStringMethod v h = (Throw (TypeError "Cannot read properties"), []).
Proof. intros [-> | ->]; reflexivity. Qed.

Lemma getWeatherData_fetch_failure (loc : ResolvedLocation) (h : Host)
  (la lo : string) :
  toStringMethod (latitude loc) h = (Ok la, []) ->
  toStringMethod (longitude loc) h = (Ok lo, []) ->
  getWeatherData_fetch loc h =
    match
      match fetchForecast h (forecastUrl la lo) with
      | Rejected e => Throw e
      | Response false _ => Throw (Error "Weather API Error")
      | Response true (Throw e) => Throw e
      | Response true (Ok data) =>
          getWeatherData_normalize h data (displayName loc) (region loc)
      end
    with
    | Ok w => (Ok w, [Fetch (forecastUrl la lo)])
    | Throw e =>
        (Throw e, [Fetch (forecastUrl la lo);
                   ConsoleError "Fetch weather error" e])
    end.
Proof.
  intros Hla Hlo. unfold getWeatherData_fetch. run.
  rewrite Hla. run. rewrite Hlo. run.
  destruct (fetchForecast h (forecastUrl la lo)) as [e | [|] [data | e]];
    run; cbn [negb]; cbv beta; try reflexivity.
  now destruct (getWeatherData_normalize h data (displayName loc) (region loc)).
Qed.

(** X3.  Once the forecast request is sent, every failure (a rejected
    request, a status that is not ok, a body that is not JSON, a payload
    that the normaliser cannot read) is logged once, with the error that
    is then thrown to the caller.  A status that is not ok is refused
    whatever the body, with ["Weather API Error"]. *)
Theorem forecast_failure_is_logged_and_rethrown (loc : ResolvedLocation)
  (h : Host) (la lo : string) :
  toStringMethod (latitude loc) h = (Ok la, []) ->
  toStringMethod (longitude loc) h = (Ok lo, []) ->
  (forall e log,
     getWeatherData_fetch loc h = (Throw e, log) ->
     log = [Fetch (forecastUrl la lo); ConsoleError "Fetch weather error" e]) /\
  (forall e,
     fetchForecast h (forecastUrl la lo) = Rejected e ->
     fst (getWeatherData_fetch loc h) = Throw e) /\
  (forall body,
     fetchForecast h (forecastUrl la lo) = Response false body ->
     fst (getWeatherData_fetch loc h) = Throw (Error "Weather API Error")) /\
  (forall e,
     fetchForecast h (forecastUrl la lo) = Response true (Throw e) ->
     fst (getWeatherData_fetch loc h) = Throw e).
Proof.
  intros Hla Hlo.
  rewrite (getWeatherData_fetch_failure loc h la lo Hla Hlo).
  repeat split.
  - intros e log.
    destruct (match fetchForecast h (forecastUrl la lo) with
              | Rejected e0 => Throw e0
              | Response false _ => Throw (Error "Weather API Error")
              | Response true (Throw e0) => Throw e0
              | Response true (Ok data) =>
                  getWeatherData_normalize h data (displayName loc) (region loc)
              end) as [w | e'].
    + discriminate.
    + intros H. injection H as <- <-. reflexivity.
  - intros e ->. reflexivity.
  - intros body ->. reflexivity.
  - intros e ->. reflexivity.
Qed.

Lemma forecast_failure_is_logged_and_rethrown_offline :
  let loc := {| latitude := VNum (Fin (4071 # 100));
                longitude := VNum (Fin (- 7401 # 100));
                displayName := VStr "Current Location"; region := "" |} in
  toStringMethod (latitude loc) offlineHost = (Ok "40.71", []) /\
  toStringMethod (longitude loc) offlineHost = (Ok "-74.01", []) /\
  getWeatherData_fetch loc offlineHost
    = (Throw (TypeError "Failed to fetch"),
       [Fetch (forecastUrl "40.71" "-74.01");
        ConsoleError "Fetch weather error" (TypeError "Failed to fetch")]) /\
  forall e log,
    getWeatherData_fetch loc offlineHost = (Throw e, log) ->
    log = [Fetch (forecastUrl "40.71" "-74.01");
           ConsoleError "Fetch weather error" e].
Proof.
  intros loc. split; [reflexivity |]. split; [reflexivity |].
  split; [reflexivity |].
  exact (proj1 (forecast_failure_is_logged_and_rethrown loc offlineHost
                  "40.71" "-74.01" eq_refl eq_refl)).
Defined.

(** X4.  When the search finds no city, the forecast is not requested:
    [getWeatherData] throws ["City not found"] and its calls are those of
    the search alone. *)
Theorem no_forecast_request_without_a_city (input : string) (h : Host) :
  isCoordinatePair input = false ->
  fst (searchCity input h) = Ok [] ->
  getWeatherData input h
    = (Throw (Error "City not found"), snd (searchCity input h)).
Proof.
  intros Hp Hs. unfold getWeatherData. rewrite (resolve_not_pair _ Hp).
  destruct (searchCity input h) as [r log] eqn:E. simpl in Hs. subst r.
  unfold bind. now rewrite (search_outcome _ _ _ _ E).
Qed.

Lemma no_forecast_request_without_a_city_xyzzy :
  isCoordinatePair "Xyzzy" = false /\
  fst (searchCity "Xyzzy" (withFetchJson emptyGeocoding tokyoHost)) = Ok [] /\
  getWeatherData "Xyzzy" (withFetchJson emptyGeocoding tokyoHost)
    = (Throw (Error "City not found"), [Fetch (geocodingUrl "Xyzzy")]).
Proof.
  split; [reflexivity |]. split; [reflexivity |].
  exact (no_forecast_request_without_a_city "Xyzzy"
           (withFetchJson emptyGeocoding tokyoHost) eq_refl eq_refl).
Defined.

(** X5.  A first candidate without a latitude ([undefined] or [null])
    makes [getWeatherData] throw a [TypeError] when it builds the request:
    nothing is requested from the forecast service and nothing is logged
    beyond the calls of the search. *)
Theorem candidate_without_latitude_throws (input : string) (h : Host)
  (first : CitySearchResult) (others : list CitySearchResult)
  (log : list event) :
  isCoordinatePair input = false ->
  searchCity input h = (Ok (first :: others), log) ->
  lat first = VUndefined \/ lat first = VNull ->
  getWeatherData input h = (Throw (TypeError "Cannot read properties"), log).
Proof.
  intros Hp Hs Hl. unfold getWeatherData. rewrite (resolve_not_pair _ Hp).
  unfold bind at 1. rewrite (search_outcome _ _ _ _ Hs).
  unfold getWeatherData_fetch. unfold bind at 1.
  change (latitude (resolvedFrom first)) with (lat first).
  rewrite (toStringMethod_missing _ h Hl). now rewrite app_nil_r.
Qed.

Lemma candidate_without_latitude_throws_atlantis :
  isCoordinatePair "Atlantis" = false /\
  searchCity "Atlantis" (withFetchJson atlantisGeocoding tokyoHost)
    = (Ok [ {| name := VStr "Atlantis"; location := ", Nowhere";
               lat := VUndefined; lng := VUndefined |} ],
       [Fetch (geocodingUrl "Atlantis")]) /\
  getWeatherData "Atlantis" (withFetchJson atlantisGeocoding tokyoHost)
    = (Throw (TypeError "Cannot read properties"),
       [Fetch (geocodingUrl "Atlantis")]).
Proof.
  split; [reflexivity |]. split; [reflexivity |].
  exact (candidate_without_latitude_throws "Atlantis"
           (withFetchJson atlantisGeocoding tokyoHost)
           {| name := VStr "Atlantis"; location := ", Nowhere";
              lat := VUndefined; lng := VUndefined |} []
           [Fetch (geocodingUrl "Atlantis")] eq_refl eq_refl
           (or_introl eq_refl)).
Defined.

(** ** updateTheme and fetchWeather *)

Ltac split_ifs :=
  repeat match goal with
         | |- context [if ?c then _ else _] => destruct c
         end.

(** X6.  [updateTheme] touches the palette and the night flag only.  The
    flag is the one it is given; the palette is the night palette exactly
    when the flag is set, whatever the condition, and one of the six day
    palettes otherwise. *)
Theorem updateTheme_night_wins (cond : string) (isNight : bool) (s : AppState) :
  isNightMode (updateTheme cond isNight s) = isNight /\
  (theme (updateTheme cond isNight s) = "from-slate-900 to-indigo-950"
   <-> isNight = true) /\
  (isNight = false ->
   In (theme (updateTheme cond isNight s))
      [ "from-blue-200 via-slate-200 to-gray-100";
        "from-slate-400 via-slate-300 to-gray-200";
        "from-slate-200 via-gray-100 to-white";
        "from-blue-50 via-indigo-50 to-white";
        "from-gray-200 via-slate-100 to-white";
        "from-sky-200 via-blue-100 to-white" ]) /\
  setIsNightMode (isNightMode s) (setTheme (theme s) (updateTheme cond isNight s))
    = s.
Proof.
  unfold updateTheme. destruct s. destruct isNight.
  - repeat split; try reflexivity; try discriminate.
  - repeat split; split_ifs; simpl;
      try reflexivity; try discriminate; try tauto.
Qed.

Lemma updateTheme_at_night (cond : string) (s : AppState) :
  theme (updateTheme cond true s) = "from-slate-900 to-indigo-950".
Proof. reflexivity. Qed.

Lemma updateTheme_frame (cond : string) (isNight : bool) (s : AppState) :
  query (updateTheme cond isNight s) = query s /\
  suggestions (updateTheme cond isNight s) = suggestions s /\
  weather (updateTheme cond isNight s) = weather s /\
  loading (updateTheme cond isNight s) = loading s /\
  aiLoading (updateTheme cond isNight s) = aiLoading s /\
  analysis (updateTheme cond isNight s) = analysis s /\
  quickSummary (updateTheme cond isNight s) = quickSummary s /\
  favorites (updateTheme cond isNight s) = favorites s /\
  showFavorites (updateTheme cond isNight s) = showFavorites s /\
  error (updateTheme cond isNight s) = error s /\
  isNightMode (updateTheme cond isNight s) = isNight.
Proof.
  unfold updateTheme. repeat split; split_ifs; reflexivity.
Qed.

Lemma fetchWeather_failure (loc : string) (s : AppState) (h : Host)
  (e : exn) (log : list event) :
  getWeatherData loc h = (Throw e, log) ->
  fetchWeather loc s h
    = (Ok (setLoading false
             (setError (Some "Failed to fetch weather. Please try again.")
                (setQuery ""
                   (setSuggestions []
                      (setAnalysis VNull (setError None (setLoading true s)))))),
           None),
       log).
Proof.
  intros Hw. unfold fetchWeather. run. rewrite Hw. run.
  now rewrite !app_nil_r.
Qed.

Lemma fetchWeather_success (loc : string) (s : AppState) (h : Host)
  (data : WeatherData) (log : list event) :
  getWeatherData loc h = (Ok data, log) ->
  fetchWeather loc s h
    = (Ok (setLoading false
             (updateTheme (condition data)
                (Nat.ltb (getHours h) 6 || Nat.ltb 20 (getHours h))%bool
                (setWeather (Some data)
                   (setQuery ""
                      (setSuggestions []
                         (setAnalysis VNull
                            (setError None (setLoading true s))))))),
           Some (fst (getQuickSummary data h))),
       (log ++ snd (getQuickSummary data h))%list).
Proof.
  intros Hw. unfold fetchWeather. run. rewrite Hw. run.
  destruct (getQuickSummary data h) as [r l]. run.
  now rewrite !app_nil_r.
Qed.

(** X7.  [fetchWeather] never throws, whatever the host does.  It always
    ends with the loading flag cleared, the search bar and the suggestions
    emptied and the stored analysis reset to [null]; it leaves the
    favourites, the summary on display and the flag of the deep analysis
    as they were. *)
Theorem fetchWeather_never_throws (loc : string) (s : AppState) (h : Host) :
  exists s' p log,
    fetchWeather loc s h = (Ok (s', p), log) /\
    loading s' = false /\
    query s' = "" /\
    suggestions s' = [] /\
    analysis s' = VNull /\
    favorites s' = favorites s /\
    showFavorites s' = showFavorites s /\
    quickSummary s' = quickSummary s /\
    aiLoading s' = aiLoading s.
Proof.
  destruct (getWeatherData loc h) as [[data | e] log] eqn:Hw.
  - rewrite (fetchWeather_success loc s h data log Hw).
    eexists _, _, _. split; [reflexivity |].
    cbn [loading query suggestions analysis favorites showFavorites
         quickSummary aiLoading setLoading].
    match goal with
    | |- context [updateTheme ?c ?n ?t] =>
        destruct (updateTheme_frame c n t)
          as (-> & -> & _ & _ & -> & -> & -> & -> & -> & _)
    end.
    repeat split.
  - rewrite (fetchWeather_failure loc s h e log Hw).
    eexists _, _, _. split; [reflexivity |]. repeat split.
Qed.

(** X8.  When [getWeatherData] fails, for whatever reason, [fetchWeather]
    shows one and the same message, keeps the snapshot, the palette and
    the night flag of the earlier query, and asks for no summary: its
    calls are those of [getWeatherData]. *)
Theorem fetchWeather_failure_keeps_snapshot (loc : string) (s : AppState)
  (h : Host) (e : exn) (log : list event) :
  getWeatherData loc h = (Throw e, log) ->
  exists s',
    fetchWeather loc s h = (Ok (s', None), log) /\
    error s' = Some "Failed to fetch weather. Please try again." /\
    weather s' = weather s /\
    theme s' = theme s /\
    isNightMode s' = isNightMode s.
Proof.
  intros Hw. rewrite (fetchWeather_failure loc s h e log Hw).
  eexists. split; [reflexivity |]. repeat split.
Qed.

Lemma fetchWeather_failure_keeps_snapshot_offline :
  getWeatherData "Tokyo" offlineHost
    = (Throw (Error "City not found"),
       [Fetch (geocodingUrl "Tokyo");
        ConsoleError "Geocoding failed" (TypeError "Failed to fetch")]) /\
  exists s',
    fetchWeather "Tokyo" earlierState offlineHost
      = (Ok (s', None),
         [Fetch (geocodingUrl "Tokyo");
          ConsoleError "Geocoding failed" (TypeError "Failed to fetch")]) /\
    error s' = Some "Failed to fetch weather. Please try again." /\
    weather s' = weather earlierState /\
    theme s' = theme earlierState /\
    isNightMode s' = isNightMode earlierState.
Proof.
  split; [reflexivity |].
  exact (fetchWeather_failure_keeps_snapshot "Tokyo" earlierState offlineHost
           (Error "City not found") _ eq_refl).
Defined.

(** X9.  When [getWeatherData] succeeds, [fetchWeather] stores the
    snapshot with no error, asks for the summary after the calls of
    [getWeatherData], and sets the night flag from the clock: night is an
    hour before 6 or after 20, and at night the night palette is used
    whatever the condition.  A summary that arrives replaces the one on
    display. *)
Theorem fetchWeather_success_sets_night (loc : string) (s : AppState)
  (h : Host) (data : WeatherData) (log : list event) :
  getWeatherData loc h = (Ok data, log) ->
  exists s',
    fetchWeather loc s h
      = (Ok (s', Some (fst (getQuickSummary data h))),
         (log ++ snd (getQuickSummary data h))%list) /\
    weather s' = Some data /\
    error s' = None /\
    (isNightMode s' = true <-> getHours h < 6 \/ 20 < getHours h) /\
    (isNightMode s' = true -> theme s' = "from-slate-900 to-indigo-950") /\
    forall t later,
      quickSummary (fst (thenSetQuickSummary (Ok t) later)) = t.
Proof.
  intros Hw. rewrite (fetchWeather_success loc s h data log Hw).
  eexists. split; [reflexivity |].
  cbn [weather error isNightMode theme setLoading].
  match goal with
  | |- context [updateTheme ?c ?n ?t] =>
      destruct (updateTheme_frame c n t)
        as (_ & _ & Hwe & _ & _ & _ & _ & _ & _ & Her & Hn)
  end.
  rewrite Hwe, Her, Hn. repeat split.
  - intros Hb. apply Bool.orb_true_iff in Hb.
    destruct Hb as [Hb | Hb]; apply Nat.ltb_lt in Hb; tauto.
  - intros [Hb | Hb]; apply Nat.ltb_lt in Hb; rewrite Hb;
      [reflexivity | apply Bool.orb_true_r].
  - intros Hb. rewrite Hb. apply updateTheme_at_night.
Qed.

Lemma fetchWeather_success_sets_night_evening :
  exists data log,
    getWeatherData "Tokyo" (withHours 21 tokyoHost) = (Ok data, log) /\
    exists s',
      fetchWeather "Tokyo" earlierState (withHours 21 tokyoHost)
        = (Ok (s', Some (fst (getQuickSummary data (withHours 21 tokyoHost)))),
           (log ++ snd (getQuickSummary data (withHours 21 tokyoHost)))%list) /\
      weather s' = Some data /\
      error s' = None /\
      (isNightMode s' = true
       <-> getHours (withHours 21 tokyoHost) < 6
           \/ 20 < getHours (withHours 21 tokyoHost)) /\
      (isNightMode s' = true -> theme s' = "from-slate-900 to-indigo-950") /\
      forall t later,
        quickSummary (fst (thenSetQuickSummary (Ok t) later)) = t.
Proof.
  eexists _, _. split; [reflexivity |].
  exact (fetchWeather_success_sets_night "Tokyo" earlierState
           (withHours 21 tokyoHost) _ _ eq_refl).
Defined.

(** ** handleDeepAnalysis *)

(** X10.  [handleDeepAnalysis] never throws and touches the stored
    analysis and its loading flag only.  Without a snapshot it does
    nothing and calls nothing.  With one, it ends with the flag cleared,
    and the stored analysis is what [getDeepAnalysis] returned, or is
    unchanged when [getDeepAnalysis] failed. *)
Theorem handleDeepAnalysis_never_throws (s : AppState) (h : Host) :
  exists s' log,
    handleDeepAnalysis s h = (Ok s', log) /\
    setAiLoading (aiLoading s) (setAnalysis (analysis s) s') = s /\
    (weather s = None -> s' = s /\ log = []) /\
    (forall w, weather s = Some w ->
       aiLoading s' = false /\
       match fst (getDeepAnalysis w h) with
       | Ok v => analysis s' = v
       | Throw _ => analysis s' = analysis s
       end).
Proof.
  unfold handleDeepAnalysis. destruct (weather s) as [w |] eqn:Hw.
  - run. destruct (getDeepAnalysis w h) as [[v | e] l] eqn:Hd; run;
      (eexists _, _; split; [reflexivity |]); (split; [now destruct s |]);
      (split; [discriminate |]);
      intros w' Hw'; assert (w' = w) by congruence; subst w';
      rewrite Hd; split; reflexivity.
  - exists s, []. split; [reflexivity |]. split; [now destruct s |].
    split; [now split | discriminate].
Qed.

(** ** searchCity, continued *)

Lemma searchCity_item_plain (fields : list (string * value)) (h : Host) :
  plainCandidate fields = true ->
  searchCity_item (VObj fields) h = (Ok (candidateOf fields), []).
Proof.
  unfold plainCandidate, searchCity_item, candidateOf. intros Hp. run.
  cbn [getProp].
  destruct (lookupField "admin1" fields) as [| | | | a | |];
    try discriminate Hp;
    destruct (lookupField "country" fields) as [| | | | c | |];
    try discriminate Hp; cbn [truthy]; try reflexivity;
    destruct (String.eqb a ""%string) eqn:Ha; cbn [negb]; try reflexivity;
    apply String.eqb_eq in Ha; subst a; reflexivity.
Qed.

Lemma mapM_plain (fieldss : list (list (string * value))) (h : Host) :
  forallb plainCandidate fieldss = true ->
  mapM searchCity_item (map VObj fieldss) h = (Ok (map candidateOf fieldss), []).
Proof.
  induction fieldss as [| f r IH]; intros Hp; [reflexivity |].
  simpl in Hp. apply Bool.andb_true_iff in Hp. destruct Hp as [Hf Hr].
  simpl. unfold bind at 1. rewrite (searchCity_item_plain f h Hf).
  unfold bind at 1. rewrite (IH Hr). reflexivity.
Qed.

(** X11.  From an answer whose [results] is an array of objects with
    string (or missing) region and country, the search returns one
    candidate per entry, in the order of the answer, after one request; the
    status of the response plays no part.  A missing region leaves the
    location starting with the comma, a missing country is written
    ["undefined"]. *)
Theorem searchCity_keeps_every_candidate (q enc : string) (ok : bool)
  (data : value) (fieldss : list (list (string * value))) (h : Host) :
  2 <= String.length q ->
  encodeURIComponent h q = Ok enc ->
  fetchJson h (geocodingUrl enc) = Response ok (Ok data) ->
  getProp data "results" = Ok (VArr (map VObj fieldss)) ->
  forallb plainCandidate fieldss = true ->
  searchCity q h = (Ok (map candidateOf fieldss), [Fetch (geocodingUrl enc)]).
Proof.
  intros Hlen Henc Hf Hr Hp. unfold searchCity.
  rewrite (short_query_guard _ Hlen).
  run. rewrite Henc. run. rewrite Hf. run. rewrite Hr. run.
  cbn [truthy negb]. cbv beta iota. rewrite (mapM_plain fieldss h Hp).
  reflexivity.
Qed.

Lemma searchCity_keeps_every_candidate_two :
  searchCity "Tokyo" (withFetchJson twoGeocoding offlineHost)
    = (Ok [ {| name := VStr "Tokyo"; location := "Tokyo, Japan";
               lat := VNum (Fin (3569 # 100));
               lng := VNum (Fin (13969 # 100)) |};
            {| name := VStr "Atlantis"; location := ", Nowhere";
               lat := VUndefined; lng := VUndefined |} ],
       [Fetch (geocodingUrl "Tokyo")]).
Proof.
  exact (searchCity_keeps_every_candidate "Tokyo" "Tokyo" true
           (VObj [ ("results", VArr [tokyoCandidate; atlantisCandidate]) ])
           [ [ ("name", VStr "Tokyo"); ("admin1", VStr "Tokyo");
               ("country", VStr "Japan");
               ("latitude", VNum (Fin (3569 # 100)));
               ("longitude", VNum (Fin (13969 # 100))) ];
             [ ("name", VStr "Atlantis"); ("country", VStr "Nowhere") ] ]
           (withFetchJson twoGeocoding offlineHost)
           ltac:(simpl; lia) eq_refl eq_refl eq_refl eq_refl).
Defined.

Lemma mapM_null_throws (items : list value) (h : Host) :
  In VNull items ->
  exists e l, mapM searchCity_item items h = (Throw e, l).
Proof.
  induction items as [| x r IH]; intros Hin; [contradiction |].
  simpl. unfold bind at 1.
  destruct (searchCity_item x h) as [[c | e] l] eqn:Hx.
  - destruct Hin as [-> | Hin]; [discriminate Hx |].
    destruct (IH Hin) as (e & l' & Hr).
    unfold bind at 1. rewrite Hr. now eexists _, _.
  - now eexists _, _.
Qed.

(** X12.  One [null] among the entries of [results] costs every
    candidate: the search answers the empty list, the well-formed entries
    included. *)
Theorem searchCity_null_entry_drops_all (q enc : string) (ok : bool)
  (data : value) (items : list value) (h : Host) :
  2 <= String.length q ->
  encodeURIComponent h q = Ok enc ->
  fetchJson h (geocodingUrl enc) = Response ok (Ok data) ->
  getProp data "results" = Ok (VArr items) ->
  In VNull items ->
  fst (searchCity q h) = Ok [].
Proof.
  intros Hlen Henc Hf Hr Hin. unfold searchCity.
  rewrite (short_query_guard _ Hlen).
  run. rewrite Henc. run. rewrite Hf. run. rewrite Hr. run.
  cbn [truthy negb]. cbv beta iota.
  destruct (mapM_null_throws items h Hin) as (e & l & ->). reflexivity.
Qed.

Lemma searchCity_null_entry_drops_all_holed :
  In VNull [tokyoCandidate; VNull; atlantisCandidate] /\
  fst (searchCity "Tokyo" (withFetchJson holedGeocoding offlineHost)) = Ok [].
Proof.
  split; [right; left; reflexivity |].
  exact (searchCity_null_entry_drops_all "Tokyo" "Tokyo" true
           (VObj [ ("results", VArr [tokyoCandidate; VNull; atlantisCandidate]) ])
           [tokyoCandidate; VNull; atlantisCandidate]
           (withFetchJson holedGeocoding offlineHost)
           ltac:(simpl; lia) eq_refl eq_refl eq_refl
           (or_intror (or_introl eq_refl))).
Defined.

Lemma ToString_log (v : value) (h : Host) : snd (ToString v h) = [].
Proof. destruct v as [| | [|] | | | |]; reflexivity. Qed.

Lemma searchCity_item_log (item : value) (h : Host) :
  snd (searchCity_item item h) = [].
Proof.
  unfold searchCity_item. run.
  destruct (getProp item "name") as [nm | e]; [| reflexivity].
  destruct (getProp item "admin1") as [a | e]; [| reflexivity].
  generalize (ToString_log (if truthy a then a else VStr "") h).
  destruct (ToString (if truthy a then a else VStr "") h) as [[sa | e] la];
    simpl; intros ->; [| reflexivity].
  destruct (getProp item "country") as [c | e]; [| reflexivity].
  generalize (ToString_log c h).
  destruct (ToString c h) as [[sc | e] lc]; simpl; intros ->; [| reflexivity].
  destruct (getProp item "latitude") as [la' | e]; [| reflexivity].
  destruct (getProp item "longitude") as [lo' | e]; reflexivity.
Qed.

Lemma mapM_item_log (items : list value) (h : Host) :
  snd (mapM searchCity_item items h) = [].
Proof.
  induction items as [| x r IH]; [reflexivity |].
  simpl. unfold bind at 1.
  generalize (searchCity_item_log x h).
  destruct (searchCity_item x h) as [[c | e] l]; simpl; intros ->;
    [| reflexivity].
  unfold bind at 1. destruct (mapM searchCity_item r h) as [[cs | e] l].
  - simpl in IH. subst l. reflexivity.
  - simpl in IH. subst l. reflexivity.
Qed.

Lemma searchCity_one_request (q : string) (h : Host) :
  List.length (filter isFetch (snd (searchCity q h))) <= 1.
Proof.
  unfold searchCity.
  destruct (String.eqb q "" || Nat.ltb (String.length q) 2)%bool;
    [simpl; lia |].
  run. destruct (encodeURIComponent h q) as [enc | e]; run; [| simpl; lia].
  destruct (fetchJson h (geocodingUrl enc)) as [e | ok [data | e]]; run;
    try (simpl; lia).
  destruct (getProp data "results") as [r | e]; run; [| simpl; lia].
  destruct (negb (truthy r)); [simpl; lia |].
  destruct r; try (simpl; lia).
  generalize (mapM_item_log items h).
  destruct (mapM searchCity_item items h) as [[cs | e] l]; simpl; intros ->;
    simpl; lia.
Qed.

(** ** handleSearchChange *)

(** X13.  [handleSearchChange] never throws and always stores the typed
    text.  Up to two characters it empties the suggestions without any
    call; from three characters on the suggestions are what the city
    search returns, for at most one request.  Nothing else of the state
    changes. *)
Theorem handleSearchChange_never_throws (val : string) (s : AppState) (h : Host) :
  exists s' log,
    handleSearchChange val s h = (Ok s', log) /\
    query s' = val /\
    setSuggestions (suggestions s) (setQuery (query s) s') = s /\
    (String.length val <= 2 -> suggestions s' = [] /\ log = []) /\
    (2 < String.length val ->
       fst (searchCity val h) = Ok (suggestions s') /\
       log = snd (searchCity val h)) /\
    List.length (filter isFetch log) <= 1.
Proof.
  unfold handleSearchChange.
  destruct (Nat.ltb 2 (String.length val)) eqn:Hl.
  - apply Nat.ltb_lt in Hl.
    generalize (searchCity_one_request val h).
    destruct (searchCity_never_throws val h) as (cs & l & Hs).
    run. rewrite Hs. run. rewrite app_nil_r. simpl. intros Hone.
    eexists _, _. split; [reflexivity |]. split; [reflexivity |].
    split; [now destruct s |]. split; [lia |]. split; [now split | exact Hone].
  - apply Nat.ltb_ge in Hl.
    eexists _, _. split; [reflexivity |]. split; [reflexivity |].
    split; [now destruct s |]. split; [now split |]. split; [lia | simpl; lia].
Qed.

(** ** wmoToCondition *)

Lemma Qred_inject_Z (z : Z) : Qred (inject_Z z) = inject_Z z.
Proof.
  unfold inject_Z, Qred.
  generalize (Z.ggcd_gcd z 1) (Z.ggcd_correct_divisors z 1).
  destruct (Z.ggcd z 1) as [g [aa bb]]. simpl.
  rewrite Z.gcd_1_r. intros Hg [Ha Hb]. subst g.
  replace bb with 1%Z by lia. replace aa with z by lia. reflexivity.
Qed.

Lemma wmoToCondition_integer (z : Z) :
  wmoToCondition (RNum (numOfZ z))
    = match lookupCode z wmoTable with
      | Some label => label
      | None => "Unknown"
      end.
Proof.
  unfold wmoToCondition, numOfZ. rewrite Qred_inject_Z. reflexivity.
Qed.

Lemma lookupCode_In (z : Z) (label : string) (table : list (Z * string)) :
  lookupCode z table = Some label -> In (z, label) table.
Proof.
  induction table as [| [k l] r IH]; [discriminate |].
  simpl. destruct (Z.eqb z k) eqn:E.
  - intros H. injection H as <-. apply Z.eqb_eq in E. subst k. now left.
  - intros H. right. now apply IH.
Qed.

Lemma wmoTable_labels (z : Z) (label : string) :
  In (z, label) wmoTable ->
  label <> "Unknown" /\ lookupCode z wmoTable = Some label.
Proof.
  unfold wmoTable. simpl.
  intros H.
  repeat (destruct H as [H | H];
          [injection H as <- <-; split; [discriminate | reflexivity] |]).
  contradiction.
Qed.

Lemma wmoTable_labels_distinct :
  NoDup (map snd wmoTable).
Proof.
  unfold wmoTable. simpl.
  repeat (constructor;
          [simpl; intros H;
           repeat (destruct H as [H | H]; [discriminate H |]); exact H |]).
  constructor.
Qed.

Lemma NoDup_snd_injective {A B} (l : list (A * B)) (a1 a2 : A) (b : B) :
  NoDup (map snd l) -> In (a1, b) l -> In (a2, b) l -> a1 = a2.
Proof.
  induction l as [| [a b'] r IH]; intros Hnd H1 H2; [contradiction |].
  simpl in Hnd. inversion Hnd as [| x xs Hnotin Hnd']; subst.
  destruct H1 as [H1 | H1]; destruct H2 as [H2 | H2].
  - congruence.
  - injection H1 as -> ->. elim Hnotin.
    change b with (snd (a2, b)). now apply in_map.
  - injection H2 as -> ->. elim Hnotin.
    change b with (snd (a1, b)). now apply in_map.
  - now apply IH.
Qed.

(** X14.  A label other than ["Unknown"] identifies its weather code: two
    integer codes with the same such label are the same code, and that
    code is in the table with that label. *)
Theorem wmo_label_identifies_code (z1 z2 : Z) :
  wmoToCondition (RNum (numOfZ z1)) = wmoToCondition (RNum (numOfZ z2)) ->
  wmoToCondition (RNum (numOfZ z1)) <> "Unknown" ->
  z1 = z2 /\ In (z1, wmoToCondition (RNum (numOfZ z1))) wmoTable.
Proof.
  rewrite !wmoToCondition_integer.
  destruct (lookupCode z1 wmoTable) as [l1 |] eqn:E1; [| congruence].
  destruct (lookupCode z2 wmoTable) as [l2 |] eqn:E2; [| congruence].
  intros <- _.
  apply lookupCode_In in E1. apply lookupCode_In in E2.
  split; [| exact E1].
  exact (NoDup_snd_injective wmoTable z1 z2 l1 wmoTable_labels_distinct E1 E2).
Qed.

Lemma wmo_label_identifies_code_rain :
  wmoToCondition (RNum (numOfZ 61)) = "Slight Rain" /\
  (61 = 61)%Z /\ In (61%Z, "Slight Rain") wmoTable.
Proof.
  split; [reflexivity |].
  exact (wmo_label_identifies_code 61 61 eq_refl
           ltac:(discriminate)).
Defined.

(** X15.  Whatever the reading given as a code, the label is one of the
    labels of the table or ["Unknown"].  A code of the table gets its own
    label, which is never ["Unknown"]; the label is ["Unknown"] for every
    reading that is not a number, for NaN and the infinities, for a
    number that is not an integer and for an integer outside the table. *)
Theorem wmoToCondition_range (code : reading) :
  In (wmoToCondition code) ("Unknown" :: map snd wmoTable) /\
  (forall z label, code = RNum (numOfZ z) -> In (z, label) wmoTable ->
     wmoToCondition code = label /\ label <> "Unknown") /\
  (forall z, code = RNum (numOfZ z) ->
     lookupCode z wmoTable = None -> wmoToCondition code = "Unknown") /\
  (forall n, code = RNum n -> isInteger n = false ->
     wmoToCondition code = "Unknown") /\
  (code = RUndefined \/ code = RNull -> wmoToCondition code = "Unknown").
Proof.
  split; [| split; [| split; [| split]]].
  - destruct code as [| | [| | | q]]; try (now left).
    unfold wmoToCondition.
    destruct (Pos.eqb (Qden (Qred q)) 1); [| now left].
    destruct (lookupCode (Qnum (Qred q)) wmoTable) as [l |] eqn:E; [| now left].
    right. apply lookupCode_In in E.
    change l with (snd (Qnum (Qred q), l)). now apply in_map.
  - intros z label -> Hin.
    destruct (wmoTable_labels z label Hin) as [Hu Hl].
    rewrite wmoToCondition_integer, Hl. now split.
  - intros z -> Hn. rewrite wmoToCondition_integer. now rewrite Hn.
  - intros n -> Hi. destruct n as [| | | q]; try reflexivity.
    unfold wmoToCondition. unfold isInteger in Hi. now rewrite Hi.
  - intros [-> | ->]; reflexivity.
Qed.

(** ** WeatherIcon *)

(** X16.  Night changes the icon of clear weather only: by night the icon
    is the one of the day, except that the sun gives way to the moon.  So
    the moon is never shown by day and the sun never by night. *)
Theorem WeatherIcon_night_only_swaps_sun (cond className : string) :
  glyph (WeatherIcon cond className true)
    = match glyph (WeatherIcon cond className false) with
      | Sun => Moon
      | other => other
      end /\
  glyph (WeatherIcon cond className false) <> Moon /\
  glyph (WeatherIcon cond className true) <> Sun.
Proof.
  unfold WeatherIcon. cbv zeta.
  repeat split; split_ifs; cbn [glyph]; try reflexivity; discriminate.
Qed.

Lemma icons_and_palettes_of_labels :
  Forall
    (fun label =>
       let dayTheme := theme (updateTheme label false initialState) in
       let dayIcon := glyph (WeatherIcon label "w-10 h-10" false) in
       (dayTheme = "from-sky-200 via-blue-100 to-white" <-> dayIcon = Sun) /\
       (dayTheme = "from-slate-400 via-slate-300 to-gray-200"
        <-> dayIcon = CloudLightning) /\
       (dayTheme = "from-slate-200 via-gray-100 to-white" <-> dayIcon = Cloud) /\
       (dayTheme = "from-gray-200 via-slate-100 to-white" <-> dayIcon = CloudFog) /\
       (dayTheme = "from-blue-200 via-slate-200 to-gray-100"
        <-> dayIcon = CloudRain \/ dayIcon = CloudDrizzle
            \/ label = "Snow Grains") /\
       (dayTheme = "from-blue-50 via-indigo-50 to-white"
        <-> dayIcon = CloudSnow /\ label <> "Snow Grains") /\
       (label = "Snow Grains" -> dayIcon = CloudSnow))
    ("Unknown" :: map snd wmoTable).
Proof.
  unfold wmoTable. cbn [map snd].
  repeat (constructor; [vm_compute; intuition congruence |]).
  constructor.
Qed.

Lemma theme_of_any_state (cond : string) (isNight : bool) (s : AppState) :
  theme (updateTheme cond isNight s)
    = theme (updateTheme cond isNight initialState).
Proof. unfold updateTheme. split_ifs; reflexivity. Qed.

Lemma glyph_of_any_class (cond className : string) (isNight : bool) :
  glyph (WeatherIcon cond className isNight)
    = glyph (WeatherIcon cond "w-10 h-10" isNight).
Proof. unfold WeatherIcon. cbv zeta. split_ifs; reflexivity. Qed.

(** X17.  For every weather code, the palette of the day and the icon of
    the day tell the same weather: clear palette with the sun, storm
    palette with the lightning, cloud palette with the cloud, fog palette
    with the fog, rain palette with the rain or the drizzle, snow palette
    with the snow.  The one exception is the label ["Snow Grains"] (code
    77), whose text contains the word rain: it gets the rain palette under
    the snow icon. *)
Theorem palette_and_icon_agree (code : reading) (s : AppState) (className : string) :
  let label := wmoToCondition code in
  let dayTheme := theme (updateTheme label false s) in
  let dayIcon := glyph (WeatherIcon label className false) in
  (dayTheme = "from-sky-200 via-blue-100 to-white" <-> dayIcon = Sun) /\
  (dayTheme = "from-slate-400 via-slate-300 to-gray-200"
   <-> dayIcon = CloudLightning) /\
  (dayTheme = "from-slate-200 via-gray-100 to-white" <-> dayIcon = Cloud) /\
  (dayTheme = "from-gray-200 via-slate-100 to-white" <-> dayIcon = CloudFog) /\
  (dayTheme = "from-blue-200 via-slate-200 to-gray-100"
   <-> dayIcon = CloudRain \/ dayIcon = CloudDrizzle \/ label = "Snow Grains") /\
  (dayTheme = "from-blue-50 via-indigo-50 to-white"
   <-> dayIcon = CloudSnow /\ label <> "Snow Grains") /\
  (label = "Snow Grains" -> dayIcon = CloudSnow).
Proof.
  intros label dayTheme dayIcon. subst dayTheme dayIcon.
  rewrite theme_of_any_state, glyph_of_any_class.
  assert (Hin : In label ("Unknown" :: map snd wmoTable)).
  { subst label. destruct code as [| | [| | | q]]; try (now left).
    unfold wmoToCondition.
    destruct (Pos.eqb (Qden (Qred q)) 1); [| now left].
    destruct (lookupCode (Qnum (Qred q)) wmoTable) as [l |] eqn:E; [| now left].
    right. apply lookupCode_In in E.
    change l with (snd (Qnum (Qred q), l)). now apply in_map. }
  exact (proj1 (Forall_forall _ _) icons_and_palettes_of_labels label Hin).
Qed.

(** The code 77 under both. *)
Example snow_grains_under_rain_palette :
  wmoToCondition (RNum (Fin 77)) = "Snow Grains" /\
  theme (updateTheme "Snow Grains" false initialState)
    = "from-blue-200 via-slate-200 to-gray-100" /\
  glyph (WeatherIcon "Snow Grains" "w-10 h-10" false) = CloudSnow.
Proof. repeat split. Qed.

(** ** parseFloat and the coordinate test *)

Lemma span_cons_digit (d : ascii) (rest : list ascii) :
  isDigit d = true ->
  span isDigit (d :: rest)
    = (d :: fst (span isDigit rest), snd (span isDigit rest)).
Proof.
  intros Hd. simpl. rewrite Hd. now destruct (span isDigit rest).
Qed.

Lemma parseFloat_digit_led (d : ascii) (rest : list ascii) :
  isDigit d = true ->
  isNaN (parseFloatChars (d :: rest)) = false.
Proof.
  intros Hd. unfold parseFloatChars.
  assert (Hw : isWhiteSpace d = false).
  { destruct d as [[] [] [] [] [] [] [] []]; try discriminate Hd; reflexivity. }
  assert (Hm : Ascii.eqb d "-" = false).
  { destruct d as [[] [] [] [] [] [] [] []]; try discriminate Hd; reflexivity. }
  assert (Hp : Ascii.eqb d "+" = false).
  { destruct d as [[] [] [] [] [] [] [] []]; try discriminate Hd; reflexivity. }
  assert (Hi : Ascii.eqb "I" d = false).
  { destruct d as [[] [] [] [] [] [] [] []]; try discriminate Hd; reflexivity. }
  unfold trimStart. cbn [dropWhile]. rewrite Hw, Hm, Hp.
  cbn [list_ascii_of_string prefixChars]. rewrite Hi. cbn [andb].
  rewrite (span_cons_digit d rest Hd).
  destruct (match snd (span isDigit rest) with
            | [] => ([], snd (span isDigit rest))
            | d0 :: t =>
                if Ascii.eqb d0 "." then span isDigit t
                else ([], snd (span isDigit rest))
            end) as [fp r2].
  reflexivity.
Qed.

(** X18.  The coordinate test reads the leading number of each segment
    and ignores what follows: an input with a comma whose first two
    segments, trimmed, begin with a digit is taken for a coordinate pair,
    whatever else it contains, and is resolved to ["Current Location"]
    without any search. *)
Theorem digit_led_segments_are_coordinates (input : string) (h : Host)
  (d0 d1 : ascii) (r0 r1 : string) :
  includes input "," = true ->
  segment 0 input = String d0 r0 -> isDigit d0 = true ->
  segment 1 input = String d1 r1 -> isDigit d1 = true ->
  isCoordinatePair input = true /\
  getWeatherData_resolve input h =
    (Ok {| latitude := VNum (parseFloat (segment 0 input));
           longitude := VNum (parseFloat (segment 1 input));
           displayName := VStr "Current Location";
           region := "" |},
     []).
Proof.
  intros Hc H0 Hd0 H1 Hd1.
  assert (N0 : isNaN (parseFloat (segment 0 input)) = false).
  { rewrite H0. unfold parseFloat. cbn [list_ascii_of_string].
    now apply parseFloat_digit_led. }
  assert (N1 : isNaN (parseFloat (segment 1 input)) = false).
  { rewrite H1. unfold parseFloat. cbn [list_ascii_of_string].
    now apply parseFloat_digit_led. }
  split.
  - unfold isCoordinatePair. now rewrite Hc, N0, N1.
  - unfold getWeatherData_resolve.
    rewrite Hc. fold (segment 0 input). fold (segment 1 input).
    now rewrite N0, N1.
Qed.

Lemma digit_led_segments_are_coordinates_address :
  includes "12 Main St, 5th floor" "," = true /\
  segment 0 "12 Main St, 5th floor" = "12 Main St" /\
  segment 1 "12 Main St, 5th floor" = "5th floor" /\
  isCoordinatePair "12 Main St, 5th floor" = true /\
  getWeatherData_resolve "12 Main St, 5th floor" tokyoHost =
    (Ok {| latitude := VNum (Fin 12);
           longitude := VNum (Fin 5);
           displayName := VStr "Current Location";
           region := "" |},
     []).
Proof.
  split; [reflexivity |]. split; [reflexivity |]. split; [reflexivity |].
  exact (digit_led_segments_are_coordinates "12 Main St, 5th floor" tokyoHost
           "1" "5" "2 Main St" "th floor"
           eq_refl eq_refl eq_refl eq_refl eq_refl).
Defined.

(** ** The favourites *)

Lemma includes_favorite (c : string) (l : list string) :
  existsb (String.eqb c) l = true <-> In c l.
Proof.
  rewrite existsb_exists. split.
  - intros (x & Hin & He). apply String.eqb_eq in He. now subst x.
  - intros Hin. exists c. split; [exact Hin | apply String.eqb_refl].
Qed.

Lemma not_includes_favorite (c : string) (l : list string) :
  existsb (String.eqb c) l = false <-> ~ In c l.
Proof.
  rewrite <- includes_favorite.
  destruct (existsb (String.eqb c) l); split; intros H;
    try reflexivity; try discriminate; try (now elim H); congruence.
Qed.

Lemma in_without (c x : string) (l : list string) :
  In x (filter (fun y => negb (String.eqb y c)) l) <-> In x l /\ x <> c.
Proof.
  rewrite filter_In. split; intros [Hin Hx]; (split; [exact Hin |]).
  - intros ->. now rewrite String.eqb_refl in Hx.
  - apply Bool.negb_true_iff. now apply String.eqb_neq.
Qed.

Lemma without_absent (c : string) (l : list string) :
  ~ In c l -> filter (fun y => negb (String.eqb y c)) l = l.
Proof.
  intros Hn. apply forallb_filter_id. apply forallb_forall.
  intros x Hx. apply Bool.negb_true_iff. apply String.eqb_neq.
  intros ->. now elim Hn.
Qed.

(** X19.  A click on the heart flips the city and nothing else: the city
    is a favourite afterwards exactly when it was not before, every other
    city stays in or out as it was, no other field of the state changes,
    and the array written to the storage is the list of the new state. *)
Theorem heartOnClick_flips (c : string) (s : AppState) :
  snd (heartOnClick c s) = favorites (fst (heartOnClick c s)) /\
  (In c (favorites (fst (heartOnClick c s))) <-> ~ In c (favorites s)) /\
  (forall x, x <> c ->
     (In x (favorites (fst (heartOnClick c s))) <-> In x (favorites s))) /\
  setFavorites (favorites s) (fst (heartOnClick c s)) = s.
Proof.
  unfold heartOnClick.
  destruct (existsb (String.eqb c) (favorites s)) eqn:E.
  - apply includes_favorite in E. cbn [removeFavorite fst snd favorites setFavorites].
    split; [reflexivity |]. split; [| split; [| now destruct s]].
    + rewrite in_without. tauto.
    + intros x Hx. rewrite in_without. tauto.
  - apply not_includes_favorite in E.
    cbn [saveFavorite fst snd favorites setFavorites].
    split; [reflexivity |]. split; [| split; [| now destruct s]].
    + rewrite in_app_iff. simpl. tauto.
    + intros x Hx. rewrite in_app_iff. simpl. split; [| tauto].
      intros [H | [H | []]]; [exact H | now elim Hx].
Qed.

(** X20.  The heart keeps the list free of duplicates: when no city is
    saved twice before the click, none is after it. *)
Theorem heartOnClick_keeps_NoDup (c : string) (s : AppState) :
  NoDup (favorites s) ->
  NoDup (favorites (fst (heartOnClick c s))).
Proof.
  intros Hnd. unfold heartOnClick.
  destruct (existsb (String.eqb c) (favorites s)) eqn:E.
  - cbn [removeFavorite fst favorites setFavorites]. now apply NoDup_filter.
  - apply not_includes_favorite in E.
    cbn [saveFavorite fst favorites setFavorites].
    apply NoDup_app; [exact Hnd | repeat constructor; intros [] |].
    intros a Ha [<- | []]. now elim E.
Qed.

Lemma heartOnClick_keeps_NoDup_saved :
  NoDup (favorites savedState) /\
  favorites (fst (heartOnClick "Oslo" savedState)) = ["Tokyo"; "Paris"; "Oslo"] /\
  NoDup (favorites (fst (heartOnClick "Oslo" savedState))).
Proof.
  assert (Hnd : NoDup (favorites savedState)).
  { repeat constructor; simpl; intuition discriminate. }
  split; [exact Hnd |]. split; [reflexivity |].
  exact (heartOnClick_keeps_NoDup "Oslo" savedState Hnd).
Defined.

(** X21.  [saveFavorite] does not look at the list: it always adds one
    occurrence of the city, at the end.  [removeFavorite] removes every
    occurrence, so removing after saving gives the earlier list without
    the city at all, which is the earlier list only when the city was not
    in it. *)
Theorem save_then_remove (c : string) (s : AppState) :
  favorites (fst (saveFavorite c s)) = (favorites s ++ [c])%list /\
  count_occ string_dec (favorites (fst (saveFavorite c s))) c
    = S (count_occ string_dec (favorites s) c) /\
  favorites (fst (removeFavorite c (fst (saveFavorite c s))))
    = filter (fun y => negb (String.eqb y c)) (favorites s) /\
  ~ In c (favorites (fst (removeFavorite c (fst (saveFavorite c s))))) /\
  (~ In c (favorites s) ->
   favorites (fst (removeFavorite c (fst (saveFavorite c s)))) = favorites s).
Proof.
  cbn [saveFavorite removeFavorite fst favorites setFavorites].
  assert (Hf : filter (fun y => negb (String.eqb y c)) (favorites s ++ [c])
               = filter (fun y => negb (String.eqb y c)) (favorites s)).
  { rewrite filter_app. simpl. rewrite String.eqb_refl. simpl.
    apply app_nil_r. }
  split; [reflexivity |]. split; [| split; [exact Hf | split]].
  - rewrite count_occ_app. simpl.
    destruct (string_dec c c) as [_ | Hn]; [lia | now elim Hn].
  - rewrite Hf, in_without. tauto.
  - intros Hn. rewrite Hf. now apply without_absent.
Qed.

(** X22.  Two clicks on the heart give back the same favourites.  When
    the city was not saved the state is the same state; when it was, its
    occurrences are replaced by one at the end of the list. *)
Theorem heartOnClick_twice (c : string) (s : AppState) :
  (forall x,
     In x (favorites (fst (heartOnClick c (fst (heartOnClick c s)))))
     <-> In x (favorites s)) /\
  (~ In c (favorites s) ->
   fst (heartOnClick c (fst (heartOnClick c s))) = s) /\
  (In c (favorites s) ->
   favorites (fst (heartOnClick c (fst (heartOnClick c s))))
     = (filter (fun y => negb (String.eqb y c)) (favorites s) ++ [c])%list).
Proof.
  assert (Hout : ~ In c (favorites s) ->
                 fst (heartOnClick c (fst (heartOnClick c s))) = s).
  { intros Hn. unfold heartOnClick at 2.
    rewrite (proj2 (not_includes_favorite c (favorites s)) Hn).
    cbn [saveFavorite fst]. unfold heartOnClick.
    cbn [favorites setFavorites].
    rewrite (proj2 (includes_favorite c (favorites s ++ [c])));
      [| apply in_or_app; right; now left].
    cbn [removeFavorite fst favorites setFavorites].
    rewrite filter_app. simpl. rewrite String.eqb_refl. simpl.
    rewrite app_nil_r, (without_absent c (favorites s) Hn).
    now destruct s. }
  assert (Hin : In c (favorites s) ->
                favorites (fst (heartOnClick c (fst (heartOnClick c s))))
                  = (filter (fun y => negb (String.eqb y c)) (favorites s)
                     ++ [c])%list).
  { intros Hi. unfold heartOnClick at 2.
    rewrite (proj2 (includes_favorite c (favorites s)) Hi).
    cbn [removeFavorite fst]. unfold heartOnClick.
    cbn [favorites setFavorites].
    rewrite (proj2 (not_includes_favorite c _));
      [reflexivity | rewrite in_without; tauto]. }
  split; [| split; assumption].
  intros x. destruct (in_dec string_dec c (favorites s)) as [Hi | Hn].
  - rewrite (Hin Hi), in_app_iff, in_without. simpl.
    destruct (string_dec x c) as [-> | Hx]; [tauto |].
    split; [intros [[H _] | [H | []]]; [exact H | now elim Hx; symmetry] | tauto].
  - now rewrite (Hout Hn).
Qed.

(** Two clicks on a saved city move it to the end. *)
Example two_clicks_on_tokyo :
  favorites (fst (heartOnClick "Tokyo" (fst (heartOnClick "Tokyo" savedState))))
    = ["Paris"; "Tokyo"].
Proof. reflexivity. Qed.

(** ** The requests to the generative model, continued *)

(** X23.  When the client of the generative model cannot be created,
    neither request is sent: both functions reject with the error of the
    constructor and call nothing. *)
Theorem no_client_no_request (h : Host) (w : WeatherData) (e : exn) :
  newGoogleGenAI h = Throw e ->
  getQuickSummary w h = (Throw e, []) /\
  getDeepAnalysis w h = (Throw e, []).
Proof.
  intros Hai. unfold getQuickSummary, getDeepAnalysis. run.
  rewrite Hai. now split.
Qed.

Lemma no_client_no_request_keyless :
  newGoogleGenAI keylessHost = Throw (Error "An API Key must be set") /\
  getQuickSummary sampleWeather keylessHost
    = (Throw (Error "An API Key must be set"), []) /\
  getDeepAnalysis sampleWeather keylessHost
    = (Throw (Error "An API Key must be set"), []).
Proof.
  split; [reflexivity |].
  exact (no_client_no_request keylessHost sampleWeather
           (Error "An API Key must be set") eq_refl).
Defined.

(** X24.  An answer of the model without text, or with the empty text, is
    the empty summary for the quick summary, and for the deep analysis is
    read as the text of the empty object: the analysis is then whatever
    [JSON.parse] makes of that text. *)
Theorem answer_without_text (h : Host) (w : WeatherData)
  (quick deep : GenerateContentResponse) :
  newGoogleGenAI h = Ok tt ->
  generateContent h "gemini-3-flash-preview"
    (QuickPrompt (condition w) (currentTemp w) (city w)) = Ok quick ->
  generateContent h "gemini-3-pro-preview" (DeepPrompt w) = Ok deep ->
  (text quick = None \/ text quick = Some "" ->
   getQuickSummary w h = (Ok "", [Generate "gemini-3-flash-preview"])) /\
  (text deep = None \/ text deep = Some "" ->
   getDeepAnalysis w h
     = (JSON_parse h "{}", [Generate "gemini-3-pro-preview"])).
Proof.
  intros Hai Hq Hd. split.
  - intros Ht. unfold getQuickSummary. run. rewrite Hai. run. rewrite Hq. run.
    now destruct Ht as [-> | ->].
  - intros Ht. rewrite (getDeepAnalysis_run h w deep Hai Hd).
    now destruct Ht as [-> | ->].
Qed.

Lemma answer_without_text_silent :
  getQuickSummary sampleWeather silentHost
    = (Ok "", [Generate "gemini-3-flash-preview"]) /\
  getDeepAnalysis sampleWeather silentHost
    = (Ok (VObj []), [Generate "gemini-3-pro-preview"]).
Proof.
  destruct (answer_without_text silentHost sampleWeather
              {| text := None |} {| text := None |} eq_refl eq_refl eq_refl)
    as [Hq Hd].
  split; [exact (Hq (or_introl eq_refl)) | exact (Hd (or_introl eq_refl))].
Defined.

(** ** The full hourly window and the padded daily window *)

(** X25.  When the hourly series has a truthy timestamp at each of the 24
    indices from the starting index on, the window is full: 24 entries,
    the [k]-th built from the source index [start + k].  Where the
    temperature series is shorter than the time series, the entry is
    still there, with a temperature of NaN. *)
Theorem hourly_window_full (h : Host) (o : HourlyRaw) (ts : list stamp)
  (xs : list reading) (start : nat) :
  hourly_time o = Some ts ->
  hourly_temperature_2m o = Some xs ->
  (forall j, start <= j < start + 24 ->
     stampTruthy (nth j ts SUndefined) = true) ->
  hourlyLoop h (Some o) start 24
    = Ok (map (hourlyEntry h ts xs) (seq start 24)) /\
  (forall k, k < 24 ->
     nth_error (map (hourlyEntry h ts xs) (seq start 24)) k
       = Some (hourlyEntry h ts xs (start + k))) /\
  (forall j, List.length xs <= j -> temp (hourlyEntry h ts xs j) = NaN).
Proof.
  intros Ht Hx Hall. split; [| split].
  - rewrite (hourlyLoop_spec h o ts xs Ht Hx). unfold hourlyIndices.
    rewrite forallb_filter_id; [reflexivity |].
    apply forallb_forall. intros j Hj. apply in_seq in Hj. now apply Hall.
  - intros k Hk. rewrite nth_error_map, nth_error_nth' with (d := 0).
    + now rewrite seq_nth.
    + now rewrite length_seq.
  - intros j Hj. unfold hourlyEntry. cbn [temp].
    now rewrite (nth_overflow xs RUndefined Hj).
Qed.

Lemma hourly_window_full_morning :
  hourly_time (sampleHourly 30) = Some (repeat (SStr "2025-06-01T00:00") 30) /\
  hourlyLoop offlineHost (Some (sampleHourly 30)) 3 24
    = Ok (repeat {| time := "2025-06-01T00:00"; temp := Fin 22 |} 24).
Proof.
  split; [reflexivity |].
  refine (proj1 (hourly_window_full offlineHost (sampleHourly 30) _ _ 3
                   eq_refl eq_refl _)).
  intros j Hj.
  assert (Hlt : j < 30) by lia.
  do 30 (destruct j as [| j]; [reflexivity |]). lia.
Defined.

(** X26.  The daily window is padded, not cut: an index of the window at
    or past the end of every daily series gives an entry whose day is the
    formatting of [undefined], whose high and low are NaN and whose
    condition is ["Unknown"]. *)
Theorem daily_window_padded (h : Host) (o : DailyRaw) (ts : list stamp)
  (his los codes : list reading) (i : nat) :
  daily_time o = Some ts ->
  daily_temperature_2m_max o = Some his ->
  daily_temperature_2m_min o = Some los ->
  daily_weather_code o = Some codes ->
  i < 5 ->
  List.length ts <= i -> List.length his <= i ->
  List.length los <= i -> List.length codes <= i ->
  exists days,
    dailyLoop h (Some o) 0 5 = Ok days /\
    List.length days = 5 /\
    nth_error days i
      = Some {| day := formatWeekday h SUndefined; high := NaN; low := NaN;
                daily_condition := "Unknown" |}.
Proof.
  intros Ht Hh Hl Hc Hi Lt Lh Ll Lc.
  exists (map (dailyEntry h ts his los codes) (seq 0 5)).
  split; [now apply dailyLoop_spec |]. split; [reflexivity |].
  rewrite nth_error_map, nth_error_nth' with (d := 0);
    [| now rewrite length_seq].
  rewrite seq_nth by exact Hi. cbn [Nat.add option_map]. unfold dailyEntry.
  rewrite (nth_overflow ts SUndefined Lt), (nth_overflow his RUndefined Lh),
    (nth_overflow los RUndefined Ll), (nth_overflow codes RUndefined Lc).
  reflexivity.
Qed.

Lemma daily_window_padded_three_days :
  List.length (repeat (SStr "2025-06-01") 3) <= 4 /\
  exists days,
    dailyLoop offlineHost (Some (sampleDaily 3)) 0 5 = Ok days /\
    List.length days = 5 /\
    nth_error days 4
      = Some {| day := "Invalid Date"; high := NaN; low := NaN;
                daily_condition := "Unknown" |}.
Proof.
  split; [simpl; lia |].
  refine (daily_window_padded offlineHost (sampleDaily 3) _ _ _ _ 4
            eq_refl eq_refl eq_refl eq_refl _ _ _ _ _); simpl; lia.
Defined.

(** ** handleGeoLocation *)

Lemma list_ascii_of_string_app (s1 s2 : string) :
  list_ascii_of_string (s1 ++ s2)
    = (list_ascii_of_string s1 ++ list_ascii_of_string s2)%list.
Proof.
  induction s1 as [| c s1 IH]; [reflexivity |]. simpl. now rewrite IH.
Qed.

Lemma no_comma_cons (c : ascii) (l : list ascii) :
  includesChars [comma] (c :: l) = false ->
  Ascii.eqb c comma = false /\ includesChars [comma] l = false.
Proof.
  cbn [includesChars prefixChars]. rewrite (Ascii.eqb_sym comma c).
  destruct (Ascii.eqb c comma); [| now split].
  now destruct l.
Qed.

Lemma splitChars_no_comma (l : list ascii) :
  includesChars [comma] l = false -> splitChars comma l = [l].
Proof.
  induction l as [| c l IH]; intros Hn; [reflexivity |].
  apply no_comma_cons in Hn. destruct Hn as [Hc Hl].
  cbn [splitChars]. rewrite Hc, (IH Hl). reflexivity.
Qed.

Lemma splitChars_before_comma (l r : list ascii) :
  includesChars [comma] l = false ->
  splitChars comma (l ++ comma :: r) = l :: splitChars comma r.
Proof.
  induction l as [| c l IH]; intros Hn.
  - cbn [app splitChars]. now rewrite Ascii.eqb_refl.
  - apply no_comma_cons in Hn. destruct Hn as [Hc Hl].
    cbn [app splitChars]. rewrite Hc, (IH Hl). reflexivity.
Qed.

Lemma includes_comma_app (l r : list ascii) :
  includesChars [comma] (l ++ comma :: r) = true.
Proof.
  induction l as [| c l IH].
  - cbn [app includesChars prefixChars]. now rewrite Ascii.eqb_refl.
  - cbn [app includesChars]. cbn [app] in IH. rewrite IH.
    apply Bool.orb_true_r.
Qed.

Lemma pair_segments (a b : string) :
  includes a "," = false ->
  includes b "," = false ->
  includes (a ++ ", " ++ b) "," = true /\
  segment 0 (a ++ ", " ++ b) = trim a /\
  segment 1 (a ++ ", " ++ b) = trim b.
Proof.
  unfold includes, segment, split. intros Ha Hb.
  change (list_ascii_of_string ",") with [comma] in *.
  rewrite !list_ascii_of_string_app.
  change (list_ascii_of_string ", ") with [comma; " "%char].
  change ([comma; " "%char] ++ list_ascii_of_string b)%list
    with (comma :: " "%char :: list_ascii_of_string b).
  split; [apply includes_comma_app |].
  rewrite (splitChars_before_comma _ _ Ha).
  rewrite splitChars_no_comma.
  - cbn [map nth]. split.
    + now rewrite string_of_list_ascii_of_string.
    + unfold trim. rewrite list_ascii_of_string_of_list_ascii. reflexivity.
  - cbn [includesChars prefixChars]. rewrite Hb. reflexivity.
Qed.

(** X27.  The button of the device location never searches for a city.
    When the browser gives a position whose two coordinates print as
    numbers that [parseFloat] reads back, the handler runs [fetchWeather]
    on the pair, which is resolved to ["Current Location"] at the printed
    coordinates without any call. *)
Theorem device_position_is_not_geocoded (h : Host) (s : AppState)
  (la lo : number) (a b : string) :
  hostToString h (VNum la) = Ok a ->
  hostToString h (VNum lo) = Ok b ->
  includes a "," = false ->
  includes b "," = false ->
  isNaN (parseFloat (trim a)) = false ->
  isNaN (parseFloat (trim b)) = false ->
  handleGeoLocation (GeoPosition la lo) s h
    = fetchWeather (a ++ ", " ++ b) (setLoading true s) h /\
  isCoordinatePair (a ++ ", " ++ b) = true /\
  getWeatherData_resolve (a ++ ", " ++ b) h =
    (Ok {| latitude := VNum (parseFloat (trim a));
           longitude := VNum (parseFloat (trim b));
           displayName := VStr "Current Location";
           region := "" |},
     []).
Proof.
  intros Ha Hb Ca Cb Na Nb.
  destruct (pair_segments a b Ca Cb) as (Hc & S0 & S1).
  split; [| split].
  - unfold handleGeoLocation, ToString. run. rewrite Ha. run. rewrite Hb.
    cbv beta iota.
    now destruct (fetchWeather (a ++ ", " ++ b) (setLoading true s) h).
  - unfold isCoordinatePair. now rewrite Hc, S0, S1, Na, Nb.
  - unfold getWeatherData_resolve.
    rewrite Hc. fold (segment 0 (a ++ ", " ++ b)).
    fold (segment 1 (a ++ ", " ++ b)). now rewrite S0, S1, Na, Nb.
Qed.

Lemma device_position_is_not_geocoded_new_york :
  handleGeoLocation (GeoPosition (Fin (4071 # 100)) (Fin (- 7401 # 100)))
    earlierState tokyoHost
    = fetchWeather "40.71, -74.01" (setLoading true earlierState) tokyoHost /\
  isCoordinatePair "40.71, -74.01" = true /\
  getWeatherData_resolve "40.71, -74.01" tokyoHost =
    (Ok {| latitude := VNum (Fin (4071 # 100));
           longitude := VNum (Fin (- 7401 # 100));
           displayName := VStr "Current Location";
           region := "" |},
     []).
Proof.
  exact (device_position_is_not_geocoded tokyoHost earlierState
           (Fin (4071 # 100)) (Fin (- 7401 # 100)) "40.71" "-74.01"
           eq_refl eq_refl eq_refl eq_refl eq_refl eq_refl).
Defined.
